(** * Stacks transactions: the contract ABI validator and the transaction builders

    A shallow embedding of [src/contract-abi.ts] (ABI types, [getTypeUnion],
    [encodeClarityValue], [getTypeString], [matchType], [validateContractCall])
    and of the builders module ([estimateTransfer], [estimateContractDeploy],
    [estimateContractFunctionCall], [makeSTXTokenTransfer],
    [makeSmartContractDeploy], [makeContractCall]). *)

From Stdlib Require Import ZArith Ascii String.
From stdpp Require Import gmap strings list fin_maps pretty.

Set Warnings "-register-all".
Local Open Scope Z_scope.
Local Open Scope string_scope.

(** ** Clarity values

    Modelled from the spec: the [ClarityValue] union and the [ClarityType] tags
    are declared in [./clarity], which is not among the source files.  The spec
    (§3, Value) gives the variants; the field names [value], [buffer], [list]
    and [data] are the ones [matchType] reads.  A tuple's [data] is a JS object
    used as a map from field names to values. *)
Inductive ClarityValue : Type :=
| BoolTrue
| BoolFalse
| IntCV (value : Z)
| UIntCV (value : Z)
| BufferCV (buffer : list Byte.byte)
| OptionalNone
| OptionalSome (value : ClarityValue)
| ResponseOk (value : ClarityValue)
| ResponseErr (value : ClarityValue)
| PrincipalStandard (version : Z) (hash160 : string)
| PrincipalContract (version : Z) (hash160 : string) (contractName : string)
| ListCV (list : list ClarityValue)
| TupleCV (data : gmap string ClarityValue).

(** ** ABI types ([contract-abi.ts], lines 31-56) *)

Inductive ClarityAbiTypePrimitive : Type :=
| uint128 | int128 | bool_ | principal | none.

(** The primitive types are string literals in the source. *)
Definition primitive_string (p : ClarityAbiTypePrimitive) : string :=
  match p with
  | uint128 => "uint128"
  | int128 => "int128"
  | bool_ => "bool"
  | principal => "principal"
  | none => "none"
  end.

(** A declared length is a JSON number; a tuple type is an array of
    [{name; type}] entries, so the order and the duplicates of the array are
    kept. *)
Inductive ClarityAbiType : Type :=
| AbiPrimitive (p : ClarityAbiTypePrimitive)
| AbiBuffer (length : Z)
| AbiResponse (ok error : ClarityAbiType)
| AbiOptional (optional : ClarityAbiType)
| AbiTuple (tuple : list (string * ClarityAbiType))
| AbiList (type : ClarityAbiType) (length : Z).

Inductive ClarityAbiTypeId : Type :=
| ClarityAbiTypeUInt128
| ClarityAbiTypeInt128
| ClarityAbiTypeBool
| ClarityAbiTypePrincipal
| ClarityAbiTypeNone
| ClarityAbiTypeBuffer
| ClarityAbiTypeResponse
| ClarityAbiTypeOptional
| ClarityAbiTypeTuple
| ClarityAbiTypeList.

(** The numeric value of each member of the enumeration (lines 58-69). *)
Definition ClarityAbiTypeId_value (id : ClarityAbiTypeId) : Z :=
  match id with
  | ClarityAbiTypeUInt128 => 1
  | ClarityAbiTypeInt128 => 2
  | ClarityAbiTypeBool => 3
  | ClarityAbiTypePrincipal => 4
  | ClarityAbiTypeNone => 5
  | ClarityAbiTypeBuffer => 6
  | ClarityAbiTypeResponse => 7
  | ClarityAbiTypeOptional => 8
  | ClarityAbiTypeTuple => 9
  | ClarityAbiTypeList => 10
  end.

(** [union.id === x] *)
Definition id_eqb (a b : ClarityAbiTypeId) : bool :=
  Z.eqb (ClarityAbiTypeId_value a) (ClarityAbiTypeId_value b).

Record ClarityAbiTypeUnion : Type := mkUnion {
  id : ClarityAbiTypeId;
  type : ClarityAbiType
}.

(** [getTypeUnion] (lines 96-124).  The two [throw]s of the source guard
    against values outside [ClarityAbiType]; no such value exists here. *)
Definition getTypeUnion (val : ClarityAbiType) : ClarityAbiTypeUnion :=
  match val with
  | AbiPrimitive uint128 => mkUnion ClarityAbiTypeUInt128 val
  | AbiPrimitive int128 => mkUnion ClarityAbiTypeInt128 val
  | AbiPrimitive bool_ => mkUnion ClarityAbiTypeBool val
  | AbiPrimitive principal => mkUnion ClarityAbiTypePrincipal val
  | AbiPrimitive none => mkUnion ClarityAbiTypeNone val
  | AbiBuffer _ => mkUnion ClarityAbiTypeBuffer val
  | AbiResponse _ _ => mkUnion ClarityAbiTypeResponse val
  | AbiOptional _ => mkUnion ClarityAbiTypeOptional val
  | AbiTuple _ => mkUnion ClarityAbiTypeTuple val
  | AbiList _ _ => mkUnion ClarityAbiTypeList val
  end.

(** ** [matchType] (lines 249-318)

    The loop of the tuple case (lines 296-313): [tuple] is the copy of the
    value's fields made by [_.cloneDeep]; the declared entries are visited in
    array order, and the key of an entry that matched is deleted from the copy
    before the next entry is looked up. *)
Section TupleLoop.
Variable matchEntry : ClarityValue -> ClarityAbiType -> bool.

Fixpoint matchTupleEntries (entries : list (string * ClarityAbiType))
         (tuple : gmap string ClarityValue) {struct entries} : bool :=
  match entries with
  | [] => true
  | (key, entryType) :: rest =>
      match tuple !! key with
      | Some val =>
          if negb (matchEntry val entryType) then false
          else matchTupleEntries rest (delete key tuple)
      | None => false
      end
  end.
End TupleLoop.

(** Every recursive call is on a component of the declared type, so the
    recursion is structural in [abiType].  Where the source reads a field of
    [union.type] after testing [union.id], the embedding matches on the
    declared type. *)
Fixpoint matchType (cv : ClarityValue) (abiType : ClarityAbiType) {struct abiType} : bool :=
  let union := getTypeUnion abiType in
  match cv with
  | BoolTrue | BoolFalse => id_eqb (id union) ClarityAbiTypeBool
  | IntCV _ => id_eqb (id union) ClarityAbiTypeInt128
  | UIntCV _ => id_eqb (id union) ClarityAbiTypeUInt128
  | BufferCV buffer =>
      match abiType with
      | AbiBuffer length => Z.eqb length (Z.of_nat (List.length buffer))
      | _ => false
      end
  | OptionalNone =>
      id_eqb (id union) ClarityAbiTypeNone || id_eqb (id union) ClarityAbiTypeOptional
  | OptionalSome value =>
      match abiType with
      | AbiOptional optional => matchType value optional
      | _ => false
      end
  | ResponseErr value =>
      match abiType with
      | AbiResponse _ error => matchType value error
      | _ => false
      end
  | ResponseOk value =>
      match abiType with
      | AbiResponse ok _ => matchType value ok
      | _ => false
      end
  | PrincipalContract _ _ _ | PrincipalStandard _ _ =>
      id_eqb (id union) ClarityAbiTypePrincipal
  | ListCV list =>
      match abiType with
      | AbiList type length =>
          Z.eqb length (Z.of_nat (List.length list))
          && forallb (fun val => matchType val type) list
      | _ => false
      end
  | TupleCV data =>
      match abiType with
      | AbiTuple entries =>
          let tuple := data in
          matchTupleEntries (fun val entryType => matchType val entryType) entries tuple
      | _ => false
      end
  end.


(** ** Thrown errors

    The source throws [Error] and [NotImplementedError] objects that carry a
    message; [TypeError] is what the runtime throws on a property read of
    [undefined].  A function that can throw returns a [Result]. *)
Inductive Exception : Type :=
| Error (message : string)
| NotImplementedError (message : string)
| TypeError (message : string).

Inductive Result (A : Type) : Type :=
| Return (a : A)
| Throw (e : Exception).
Arguments Return {A} a.
Arguments Throw {A} e.

Definition Result_bind {A B : Type} (r : Result A) (k : A -> Result B) : Result B :=
  match r with
  | Return a => k a
  | Throw e => Throw e
  end.

(** The messages of the errors of [validateContractCall] and
    [encodeClarityValue], named after the error kinds of the spec (§7); the
    arguments are the values the source interpolates into each message. *)
Definition ArgumentCountMismatch (expected received : nat) : Exception :=
  Error ("Clarity function expects " +:+ pretty expected
         +:+ " argument(s) but received " +:+ pretty received).

Definition ArgumentTypeMismatch (functionName : string) (position : nat)
           (expected actual : string) : Exception :=
  Error ("Clarity function `" +:+ functionName +:+ "` expects argument "
         +:+ pretty position +:+ " to be of type " +:+ expected
         +:+ ", not " +:+ actual).

Definition FunctionNotFound (functionName : string) : Exception :=
  Error ("ABI doesn't contain a function with the name " +:+ functionName).

Definition AmbiguousAbi (functionName : string) : Exception :=
  Error ("Malformed ABI. Contains multiple functions with the name " +:+ functionName).

Definition UnsupportedAbiEncoding (id : ClarityAbiTypeId) : Exception :=
  NotImplementedError ("Unsupported encoding for Clarity type: "
                       +:+ pretty (ClarityAbiTypeId_value id)).

(** ** [getTypeString] (lines 172-193) *)
Fixpoint getTypeString (val : ClarityAbiType) : string :=
  match val with
  | AbiPrimitive p =>
      match p with
      | int128 => "int"
      | uint128 => "uint"
      | _ => primitive_string p
      end
  | AbiBuffer length => "(buff " +:+ pretty length +:+ ")"
  | AbiResponse ok error =>
      "(response " +:+ getTypeString ok +:+ " " +:+ getTypeString error +:+ ")"
  | AbiOptional optional => "(optional " +:+ getTypeString optional +:+ ")"
  | AbiTuple tuple =>
      "(tuple "
      +:+ String.concat " "
            (map (fun t => let '(name, type) := t in
                           "(" +:+ name +:+ " " +:+ getTypeString type +:+ ")") tuple)
      +:+ ")"
  | AbiList type length =>
      "(list " +:+ pretty length +:+ " " +:+ getTypeString type +:+ ")"
  end.

(** ** The ABI of a contract (lines 195-247) *)
Inductive ClarityAbiAccess : Type := private | public | read_only.

Record ClarityAbiFunction : Type := {
  name : string;
  access : ClarityAbiAccess;
  args : list (string * ClarityAbiType);
  outputs : ClarityAbiType
}.

Definition abiFunctionToString (func : ClarityAbiFunction) : string :=
  let access :=
    match access func with
    | read_only => "read-only"
    | private => "private"
    | public => "public"
    end in
  "(define-" +:+ access +:+ " (" +:+ name func +:+ " "
  +:+ String.concat " "
        (map (fun arg => "(" +:+ arg.1 +:+ " " +:+ getTypeString arg.2 +:+ ")") (args func))
  +:+ "))".

Inductive ClarityAbiVariableAccess : Type := variable | constant.

Record ClarityAbiVariable : Type := {
  variable_name : string;
  variable_access : ClarityAbiVariableAccess;
  variable_type : ClarityAbiType
}.

Record ClarityAbiMap : Type := {
  map_name : string;
  key : list (string * ClarityAbiType);
  value : list (string * ClarityAbiType)
}.

Record ClarityAbiTypeFungibleToken : Type := { fungible_token_name : string }.

Record ClarityAbiTypeNonFungibleToken : Type := {
  non_fungible_token_name : string;
  non_fungible_token_type : ClarityAbiType
}.

Record ClarityAbi : Type := {
  functions : list ClarityAbiFunction;
  variables : list ClarityAbiVariable;
  maps : list ClarityAbiMap;
  fungible_tokens : list ClarityAbiTypeFungibleToken;
  non_fungible_tokens : list ClarityAbiTypeNonFungibleToken
}.

(** ** The contract-call payload

    Modelled from the spec: [ContractCallPayload] is declared in [./payload],
    which is not among the source files.  The spec (§3, Payload) gives
    [ContractCall{contractAddress, contractName, functionName, args}];
    [validateContractCall] reads [functionName.content] and [functionArgs]. *)
Record LengthPrefixedString : Type := { content : string }.

Record ContractCallPayload : Type := {
  contractAddress : string;
  contractName : LengthPrefixedString;
  functionName : LengthPrefixedString;
  functionArgs : list ClarityValue
}.

(** ** [validateContractCall] (lines 328-360) *)
Section ValidateContractCall.
(** [getCVTypeString] is imported from [./clarity], which is not among the
    source files; it is a parameter of the validator. *)
Variable getCVTypeString : ClarityValue -> string.

Section Loop.
Variables (payload : ContractCallPayload) (abiArgs : list (string * ClarityAbiType)).

(** The [for] loop of lines 340-350: [remaining] iterations are left and
    the next index is [i]. *)
Fixpoint validateArgsFrom (remaining i : nat) {struct remaining} : Result bool :=
  match remaining with
  | O => Return true
  | S remaining' =>
      match functionArgs payload !! i, abiArgs !! i with
      | Some payloadArg, Some abiArg =>
          if negb (matchType payloadArg abiArg.2) then
            Throw (ArgumentTypeMismatch (content (functionName payload)) (i + 1)
                     (getTypeString abiArg.2) (getCVTypeString payloadArg))
          else validateArgsFrom remaining' (S i)
      | _, _ => Throw (TypeError "Cannot read property 'type' of undefined")
      end
  end.
End Loop.

Definition validateContractCall (payload : ContractCallPayload) (abi : ClarityAbi)
  : Result bool :=
  let filtered :=
    filter (fun fn => name fn = content (functionName payload)) (functions abi) in
  match filtered with
  | [abiFunc] =>
      let abiArgs := args abiFunc in
      if negb (Nat.eqb (length (functionArgs payload)) (length abiArgs)) then
        Throw (ArgumentCountMismatch (length abiArgs) (length (functionArgs payload)))
      else
        validateArgsFrom payload abiArgs (length (functionArgs payload)) 0
  | [] => Throw (FunctionNotFound (content (functionName payload)))
  | _ => Throw (AmbiguousAbi (content (functionName payload)))
  end.
End ValidateContractCall.

(** ** [encodeClarityValue] (lines 126-169) *)

(** [val.includes('.')] and [val.split('.')] for a one-character separator;
    [split] gives the first piece and the list of the pieces after it. *)
Fixpoint includes (c : ascii) (s : string) : bool :=
  match s with
  | EmptyString => false
  | String a s' => Ascii.eqb a c || includes c s'
  end.

Fixpoint split (c : ascii) (s : string) : string * list string :=
  match s with
  | EmptyString => (EmptyString, [])
  | String a s' =>
      let '(piece, pieces) := split c s' in
      if Ascii.eqb a c then (EmptyString, piece :: pieces)
      else (String a piece, pieces)
  end.

(** Modelled from the spec: [noneCV], [falseCV] and [trueCV] are declared in
    [./clarity], which is not among the source files; they build the values
    [OptionalNone], [BoolFalse] and [BoolTrue] of the spec (§3, Value). *)
Definition noneCV : ClarityValue := OptionalNone.
Definition falseCV : ClarityValue := BoolFalse.
Definition trueCV : ClarityValue := BoolTrue.

Section EncodeClarityValue.
(** The other value constructors are imported from [./clarity] too; they are
    parameters here and may throw.  The second argument of
    [contractPrincipalCV] is the second piece of the split, if any. *)
Variables (uintCV intCV standardPrincipalCV : string -> Result ClarityValue)
          (contractPrincipalCV : string -> option string -> Result ClarityValue)
          (bufferCV : list Byte.byte -> Result ClarityValue).
(** [JSON.stringify] on a string and [Buffer.from(val, 'utf8')]. *)
Variables (JSON_stringify : string -> string)
          (Buffer_from_utf8 : string -> list Byte.byte).

(** The two overloads take a [ClarityAbiTypeUnion] (an object with an [id])
    or a [ClarityAbiType].  The [default] case of the [switch] is not
    reachable: [ClarityAbiTypeId] has no other member. *)
Definition encodeClarityValue (input : ClarityAbiTypeUnion + ClarityAbiType)
           (val : string) : Result ClarityValue :=
  let union :=
    match input with
    | inl union => union
    | inr type => getTypeUnion type
    end in
  match id union with
  | ClarityAbiTypeUInt128 => uintCV val
  | ClarityAbiTypeInt128 => intCV val
  | ClarityAbiTypeBool =>
      if bool_decide (val = "false") || bool_decide (val = "0") then Return falseCV
      else if bool_decide (val = "true") || bool_decide (val = "1") then Return trueCV
      else Throw (Error ("Unexpected Clarity bool value: " +:+ JSON_stringify val))
  | ClarityAbiTypePrincipal =>
      if includes "."%char val then
        let '(addr, rest) := split "."%char val in
        contractPrincipalCV addr (head rest)
      else standardPrincipalCV val
  | ClarityAbiTypeNone => Return noneCV
  | ClarityAbiTypeBuffer => bufferCV (Buffer_from_utf8 val)
  | ClarityAbiTypeResponse => Throw (UnsupportedAbiEncoding (id union))
  | ClarityAbiTypeOptional => Throw (UnsupportedAbiEncoding (id union))
  | ClarityAbiTypeTuple => Throw (UnsupportedAbiEncoding (id union))
  | ClarityAbiTypeList => Throw (UnsupportedAbiEncoding (id union))
  end.
End EncodeClarityValue.

(** ** The transaction builders

    [BigNum] values ([bn.js]) are integers. *)
Abbreviation BigNum := Z (only parsing).

(** Modelled from the spec: the enumerations [AnchorMode], [PostConditionMode],
    [AddressHashMode] and [PayloadType] are declared in [./constants], which is
    not among the source files.  The builders name [AnchorMode.Any],
    [PostConditionMode.Deny], [AddressHashMode.SerializeP2PKH] and
    [PayloadType.TokenTransfer]; the spec (§3) gives the three payload
    variants, and a transaction version and a chain id are numbers.  The
    members the builders do not name stand for the other values of each
    enumeration. *)
Inductive AnchorMode : Type := OnChainOnly | OffChainOnly | Any.
Inductive PostConditionMode : Type := Allow | Deny.
Inductive AddressHashMode : Type :=
| SerializeP2PKH | SerializeP2SH | SerializeP2WPKH | SerializeP2WSH.
Inductive PayloadType : Type := TokenTransfer | SmartContract | ContractCall.
Abbreviation TransactionVersion := Z (only parsing).
Abbreviation ChainID := Z (only parsing).

Definition PayloadType_eqb (a b : PayloadType) : bool :=
  match a, b with
  | TokenTransfer, TokenTransfer => true
  | SmartContract, SmartContract => true
  | ContractCall, ContractCall => true
  | _, _ => false
  end.

(** Modelled from the spec: the payloads and their constructors are declared in
    [./payload], which is not among the source files.  The spec (§3, Payload)
    gives the tagged union; each constructor keeps what the builder passes to
    it. *)
Inductive Payload : Type :=
| TokenTransferPayload (recipient : string + ClarityValue) (amount : BigNum)
                       (memo : option string)
| SmartContractPayload (contractName codeBody : string)
| ContractCallPayloadOf (call : ContractCallPayload).

Definition payloadType (payload : Payload) : PayloadType :=
  match payload with
  | TokenTransferPayload _ _ _ => TokenTransfer
  | SmartContractPayload _ _ => SmartContract
  | ContractCallPayloadOf _ => ContractCall
  end.

Definition createTokenTransferPayload (recipient : string + ClarityValue)
           (amount : BigNum) (memo : option string) : Payload :=
  TokenTransferPayload recipient amount memo.

Definition createSmartContractPayload (contractName codeBody : string) : Payload :=
  SmartContractPayload contractName codeBody.

Definition createContractCallPayload (contractAddress contractName functionName : string)
           (functionArgs : list ClarityValue) : Payload :=
  ContractCallPayloadOf
    {| contractAddress := contractAddress;
       contractName := {| content := contractName |};
       functionName := {| content := functionName |};
       functionArgs := functionArgs |}.

(** Modelled from the spec: [createLPList] is declared in [./types], which is
    not among the source files; a length-prefixed list carries its values. *)
Record LengthPrefixedList (A : Type) : Type := { values : list A }.
Arguments values {A} _.

Definition createLPList {A : Type} (values : list A) : LengthPrefixedList A :=
  {| values := values |}.

(** The request of [fetchPrivate(url, fetchOptions)]. *)
Record FetchOptions : Type := {
  method : string;
  headers : list (string * string)
}.

(** *** Promises

    A promise is settled, or waits for the text of a fetch response and goes
    on with it; a failed fetch hands the continuation a thrown error. *)
Inductive Promise (A : Type) : Type :=
| Resolved (a : A)
| Rejected (e : Exception)
| AwaitFetch (url : string) (fetchOptions : FetchOptions)
             (k : Result string -> Promise A).
Arguments Resolved {A} a.
Arguments Rejected {A} e.
Arguments AwaitFetch {A} url fetchOptions k.

Fixpoint Promise_bind {A B : Type} (p : Promise A) (k : A -> Promise B) : Promise B :=
  match p with
  | Resolved a => k a
  | Rejected e => Rejected e
  | AwaitFetch url fetchOptions k' =>
      AwaitFetch url fetchOptions (fun response => Promise_bind (k' response) k)
  end.

(** [await f(...)] where [f] may throw before it returns its promise. *)
Definition await {A : Type} (call : Result (Promise A)) : Promise A :=
  match call with
  | Return p => p
  | Throw e => Rejected e
  end.

(** The promise run against the responses of the successive fetches; [None]
    when the responses run out. *)
Fixpoint settle {A : Type} (responses : list (Result string)) (p : Promise A)
  : option (Result A) :=
  match p with
  | Resolved a => Some (Return a)
  | Rejected e => Some (Throw e)
  | AwaitFetch _ _ k =>
      match responses with
      | response :: responses' => settle responses' (k response)
      | [] => None
      end
  end.

(** *** Option objects

    The options a caller passes: every property is optional ([None] when the
    object does not carry it; a property set to [undefined] by hand is outside
    the model).  [memo] is declared by [TokenTransferOptions] only. *)
Record Options (PostCondition : Type) : Type := {
  opt_fee : option BigNum;
  opt_feeEstimateApiUrl : option string;
  opt_nonce : option BigNum;
  opt_version : option TransactionVersion;
  opt_chainId : option ChainID;
  opt_anchorMode : option AnchorMode;
  opt_memo : option string;
  opt_postConditionMode : option PostConditionMode;
  opt_postConditions : option (list PostCondition)
}.
Arguments opt_fee {PostCondition} _.
Arguments opt_feeEstimateApiUrl {PostCondition} _.
Arguments opt_nonce {PostCondition} _.
Arguments opt_version {PostCondition} _.
Arguments opt_chainId {PostCondition} _.
Arguments opt_anchorMode {PostCondition} _.
Arguments opt_memo {PostCondition} _.
Arguments opt_postConditionMode {PostCondition} _.
Arguments opt_postConditions {PostCondition} _.

(** The object [defaultOptions] of a builder, before and after
    [Object.assign]: the properties of the literal are always there, [memo]
    and [postConditions] may be missing. *)
Record OptionsObject (PostCondition : Type) : Type := {
  fee : BigNum;
  feeEstimateApiUrl : string;
  nonce : BigNum;
  version : TransactionVersion;
  chainId : ChainID;
  anchorMode : AnchorMode;
  postConditionMode : PostConditionMode;
  memo : option string;
  postConditions : option (list PostCondition)
}.
Arguments fee {PostCondition} _.
Arguments feeEstimateApiUrl {PostCondition} _.
Arguments nonce {PostCondition} _.
Arguments version {PostCondition} _.
Arguments chainId {PostCondition} _.
Arguments anchorMode {PostCondition} _.
Arguments postConditionMode {PostCondition} _.
Arguments memo {PostCondition} _.
Arguments postConditions {PostCondition} _.

(** The properties [Object.assign(target, source)] leaves in [target]: the
    ones [source] carries overwrite the target's; an [undefined] source
    changes nothing. *)
Definition assignProperties {PostCondition : Type} (target : OptionsObject PostCondition)
           (source : option (Options PostCondition)) : OptionsObject PostCondition :=
  match source with
  | None => target
  | Some source =>
      {| fee := default (fee target) (opt_fee source);
         feeEstimateApiUrl :=
           default (feeEstimateApiUrl target) (opt_feeEstimateApiUrl source);
         nonce := default (nonce target) (opt_nonce source);
         version := default (version target) (opt_version source);
         chainId := default (chainId target) (opt_chainId source);
         anchorMode := default (anchorMode target) (opt_anchorMode source);
         postConditionMode :=
           default (postConditionMode target) (opt_postConditionMode source);
         memo := match opt_memo source with Some m => Some m | None => memo target end;
         postConditions :=
           match opt_postConditions source with
           | Some pcs => Some pcs
           | None => postConditions target
           end |}
  end.

(** [options?.fee]: the fee the caller gave, if any. *)
Definition explicitFee {PostCondition : Type} (options : option (Options PostCondition))
  : option BigNum :=
  match options with
  | Some options => opt_fee options
  | None => None
  end.

(** *** The object store

    Option objects live in a store and are named by references, so that two
    names of one object see each other's writes.  A builder is a computation
    over the store that ends in a promise. *)
Abbreviation ref := positive (only parsing).

Definition Async (O A : Type) : Type := gmap positive O -> Promise (A * gmap positive O).

Definition ret {O A : Type} (a : A) : Async O A := fun store => Resolved (a, store).

Definition bind {O A B : Type} (m : Async O A) (k : A -> Async O B) : Async O B :=
  fun store => Promise_bind (m store) (fun '(a, store') => k a store').

Definition liftPromise {O A : Type} (p : Promise A) : Async O A :=
  fun store => Promise_bind p (fun a => Resolved (a, store)).

(** An object literal: a new object under a reference not in use. *)
Definition newObject {O : Type} (o : O) : Async O ref :=
  fun store => let r := fresh (dom store) in Resolved (r, <[r := o]> store).

(** [r.property]: reading a property of the object a reference names. *)
Definition getProperty {O A : Type} (r : ref) (property : O -> A) : Async O A :=
  fun store =>
    match store !! r with
    | Some o => Resolved (property o, store)
    | None => Rejected (TypeError "reference to no object")
    end.

(** [Object.assign(target, source)] writes the properties of [source] into the
    object [target] names and returns [target] itself. *)
Definition Object_assign {PostCondition : Type} (target : ref)
           (source : option (Options PostCondition))
  : Async (OptionsObject PostCondition) ref :=
  fun store =>
    match store !! target with
    | Some o => Resolved (target, <[target := assignProperties o source]> store)
    | None => Rejected (TypeError "reference to no object")
    end.

Declare Scope async_scope.
Delimit Scope async_scope with async.
Notation "'let*' x ':=' m 'in' k" := (bind m (fun x => k))
  (at level 10, x name, m at level 100, k at level 200) : async_scope.

(** *** Transactions, and the collaborators of the builders *)
Section Builders.
(** Post-conditions, authorizations and keys come from [./postcondition],
    [./authorization] and [./keys], which are not among the source files. *)
Variables (PostCondition SpendingCondition Authorization : Type)
          (StacksPrivateKey StacksPublicKey : Type).

(** Modelled from the spec: [StacksTransaction] is declared in
    [./transaction], which is not among the source files.  The spec (§3,
    Transaction) gives its fields; the constructor takes them in the order
    the builders pass them. *)
Record StacksTransaction : Type := {
  tx_version : TransactionVersion;
  auth : Authorization;
  payload : Payload;
  tx_postConditions : LengthPrefixedList PostCondition;
  tx_postConditionMode : PostConditionMode;
  tx_anchorMode : AnchorMode;
  tx_chainId : ChainID
}.

Definition new_StacksTransaction (version : TransactionVersion) (auth : Authorization)
           (payload : Payload) (postConditions : LengthPrefixedList PostCondition)
           (postConditionMode : PostConditionMode) (anchorMode : AnchorMode)
           (chainId : ChainID) : StacksTransaction :=
  {| tx_version := version; auth := auth; payload := payload;
     tx_postConditions := postConditions; tx_postConditionMode := postConditionMode;
     tx_anchorMode := anchorMode; tx_chainId := chainId |}.

(** The functions and constants the builders import from modules that are
    not among the source files.  Setting the fee and signing change the
    authorization of a transaction (spec §2, Signer; §4.2). *)
Record Collaborators : Type := {
  DEFAULT_CORE_NODE_API_URL : string;
  DEFAULT_TRANSACTION_VERSION : TransactionVersion;
  DEFAULT_CHAIN_ID : ChainID;
  createStacksPrivateKey : string -> StacksPrivateKey;
  getPublicKey : StacksPrivateKey -> StacksPublicKey;
  publicKeyToString : StacksPublicKey -> string;
  new_SingleSigSpendingCondition :
    AddressHashMode -> string -> BigNum -> BigNum -> SpendingCondition;
  new_StandardAuthorization : SpendingCondition -> Authorization;
  authSetFee : Authorization -> BigNum -> Authorization;
  authSignOrigin : StacksTransaction -> StacksPrivateKey -> Authorization;
  serializedByteLength : StacksTransaction -> BigNum;
  BigNum_of_string : string -> BigNum
}.

Variable C : Collaborators.

(** [transaction.setFee(txFee)] *)
Definition setFee (transaction : StacksTransaction) (txFee : BigNum)
  : StacksTransaction :=
  {| tx_version := tx_version transaction;
     auth := authSetFee C (auth transaction) txFee;
     payload := payload transaction;
     tx_postConditions := tx_postConditions transaction;
     tx_postConditionMode := tx_postConditionMode transaction;
     tx_anchorMode := tx_anchorMode transaction;
     tx_chainId := tx_chainId transaction |}.

(** [new TransactionSigner(transaction).signOrigin(privKey)] *)
Definition signOrigin (transaction : StacksTransaction) (privKey : StacksPrivateKey)
  : StacksTransaction :=
  {| tx_version := tx_version transaction;
     auth := authSignOrigin C transaction privKey;
     payload := payload transaction;
     tx_postConditions := tx_postConditions transaction;
     tx_postConditionMode := tx_postConditionMode transaction;
     tx_anchorMode := tx_anchorMode transaction;
     tx_chainId := tx_chainId transaction |}.

Definition DEFAULT_FEE_ESTIMATE_API_URL : string :=
  DEFAULT_CORE_NODE_API_URL C +:+ "/v2/fees/transfer".

Definition fetchOptions : FetchOptions :=
  {| method := "GET"; headers := [("Accept", "application/text")] |}.

(** [apiUrl || default]: an [undefined] or empty [apiUrl] is falsy. *)
Definition orDefaultUrl (apiUrl : option string) : string :=
  match apiUrl with
  | Some url => if bool_decide (url = EmptyString) then DEFAULT_FEE_ESTIMATE_API_URL else url
  | None => DEFAULT_FEE_ESTIMATE_API_URL
  end.

(** The promise [fetchPrivate(url, fetchOptions).then(...).then(...)]. *)
Definition fetchFee (transaction : StacksTransaction) (url : string) : Promise BigNum :=
  AwaitFetch url fetchOptions
    (fun response =>
       match response with
       | Return feeRateResult =>
           let txBytes := serializedByteLength C transaction in
           let feeRate := BigNum_of_string C feeRateResult in
           Resolved (feeRate * txBytes)
       | Throw e => Rejected e
       end).

(** [estimateTransfer] (lines 62-85), [estimateContractDeploy] (lines
    221-249) and [estimateContractFunctionCall] (lines 354-382): each may
    throw before it returns its promise. *)
Definition estimateTransfer (transaction : StacksTransaction) (apiUrl : option string)
  : Result (Promise BigNum) :=
  if negb (PayloadType_eqb (payloadType (payload transaction)) TokenTransfer) then
    Throw (Error "Transaction is not a token transfer")
  else
    let url := orDefaultUrl apiUrl in
    Return (fetchFee transaction url).

Definition estimateContractDeploy (transaction : StacksTransaction)
           (apiUrl : option string) : Result (Promise BigNum) :=
  if negb (PayloadType_eqb (payloadType (payload transaction)) TokenTransfer) then
    Throw (Error "Transaction is not a token transfer")
  else
    let url := orDefaultUrl apiUrl in
    Return (fetchFee transaction url).

Definition estimateContractFunctionCall (transaction : StacksTransaction)
           (apiUrl : option string) : Result (Promise BigNum) :=
  if negb (PayloadType_eqb (payloadType (payload transaction)) TokenTransfer) then
    Throw (Error "Transaction is not a token transfer")
  else
    let url := orDefaultUrl apiUrl in
    Return (fetchFee transaction url).

Local Open Scope async_scope.

(** The post-conditions pushed one by one into a new array (lines 158-163,
    293-298 and 437-442). *)
Definition pushPostConditions (given : option (list PostCondition))
  : list PostCondition :=
  match given with
  | Some given =>
      if (0 <? length given)%nat then foldl (fun pushed pc => (pushed ++ [pc])%list) [] given
      else []
  | None => []
  end.

(** [makeSTXTokenTransfer] (lines 126-187) *)
Definition makeSTXTokenTransfer (recipient : string + ClarityValue) (amount : BigNum)
           (senderKey : string) (options : option (Options PostCondition))
  : Async (OptionsObject PostCondition) StacksTransaction :=
  let* defaultOptions :=
    newObject {| fee := 0;
                 feeEstimateApiUrl := DEFAULT_FEE_ESTIMATE_API_URL;
                 nonce := 0;
                 version := DEFAULT_TRANSACTION_VERSION C;
                 chainId := DEFAULT_CHAIN_ID C;
                 anchorMode := Any;
                 postConditionMode := Deny;
                 memo := Some EmptyString;
                 postConditions := None |} in
  let* normalizedOptions := Object_assign defaultOptions options in
  let* normalizedOptions_memo := getProperty normalizedOptions memo in
  let payload := createTokenTransferPayload recipient amount normalizedOptions_memo in
  let addressHashMode := SerializeP2PKH in
  let privKey := createStacksPrivateKey C senderKey in
  let pubKey := getPublicKey C privKey in
  let* normalizedOptions_nonce := getProperty normalizedOptions nonce in
  let* normalizedOptions_fee := getProperty normalizedOptions fee in
  let spendingCondition :=
    new_SingleSigSpendingCondition C addressHashMode (publicKeyToString C pubKey)
      normalizedOptions_nonce normalizedOptions_fee in
  let authorization := new_StandardAuthorization C spendingCondition in
  let* normalizedOptions_postConditions := getProperty normalizedOptions postConditions in
  let postConditions := pushPostConditions normalizedOptions_postConditions in
  let lpPostConditions := createLPList postConditions in
  let* normalizedOptions_version := getProperty normalizedOptions version in
  let* normalizedOptions_postConditionMode :=
    getProperty normalizedOptions postConditionMode in
  let* defaultOptions_anchorMode := getProperty defaultOptions anchorMode in
  let* normalizedOptions_chainId := getProperty normalizedOptions chainId in
  let transaction :=
    new_StacksTransaction normalizedOptions_version authorization payload
      lpPostConditions normalizedOptions_postConditionMode
      defaultOptions_anchorMode normalizedOptions_chainId in
  let* transaction :=
    match explicitFee options with
    | None =>
        let* normalizedOptions_feeEstimateApiUrl :=
          getProperty normalizedOptions feeEstimateApiUrl in
        let* txFee :=
          liftPromise
            (await (estimateTransfer transaction
                      (Some normalizedOptions_feeEstimateApiUrl))) in
        ret (setFee transaction txFee)
    | Some _ => ret transaction
    end in
  let transaction :=
    if bool_decide (senderKey = EmptyString) then transaction
    else signOrigin transaction privKey in
  ret transaction.

(** [makeSmartContractDeploy] (lines 262-320) *)
Definition makeSmartContractDeploy (contractName codeBody senderKey : string)
           (options : option (Options PostCondition))
  : Async (OptionsObject PostCondition) StacksTransaction :=
  let* defaultOptions :=
    newObject {| fee := 0;
                 feeEstimateApiUrl := DEFAULT_FEE_ESTIMATE_API_URL;
                 nonce := 0;
                 version := DEFAULT_TRANSACTION_VERSION C;
                 chainId := DEFAULT_CHAIN_ID C;
                 anchorMode := Any;
                 postConditionMode := Deny;
                 memo := None;
                 postConditions := None |} in
  let* normalizedOptions := Object_assign defaultOptions options in
  let payload := createSmartContractPayload contractName codeBody in
  let addressHashMode := SerializeP2PKH in
  let privKey := createStacksPrivateKey C senderKey in
  let pubKey := getPublicKey C privKey in
  let* normalizedOptions_nonce := getProperty normalizedOptions nonce in
  let* normalizedOptions_fee := getProperty normalizedOptions fee in
  let spendingCondition :=
    new_SingleSigSpendingCondition C addressHashMode (publicKeyToString C pubKey)
      normalizedOptions_nonce normalizedOptions_fee in
  let authorization := new_StandardAuthorization C spendingCondition in
  let* normalizedOptions_postConditions := getProperty normalizedOptions postConditions in
  let postConditions := pushPostConditions normalizedOptions_postConditions in
  let lpPostConditions := createLPList postConditions in
  let* normalizedOptions_version := getProperty normalizedOptions version in
  let* normalizedOptions_postConditionMode :=
    getProperty normalizedOptions postConditionMode in
  let* normalizedOptions_anchorMode := getProperty normalizedOptions anchorMode in
  let* normalizedOptions_chainId := getProperty normalizedOptions chainId in
  let transaction :=
    new_StacksTransaction normalizedOptions_version authorization payload
      lpPostConditions normalizedOptions_postConditionMode
      normalizedOptions_anchorMode normalizedOptions_chainId in
  let* transaction :=
    match explicitFee options with
    | None =>
        let* normalizedOptions_feeEstimateApiUrl :=
          getProperty normalizedOptions feeEstimateApiUrl in
        let* txFee :=
          liftPromise
            (await (estimateContractDeploy transaction
                      (Some normalizedOptions_feeEstimateApiUrl))) in
        ret (setFee transaction txFee)
    | Some _ => ret transaction
    end in
  let transaction := signOrigin transaction privKey in
  ret transaction.

(** [makeContractCall] (lines 399-467) *)
Definition makeContractCall (contractAddress contractName functionName : string)
           (functionArgs : list ClarityValue) (senderKey : string)
           (options : option (Options PostCondition))
  : Async (OptionsObject PostCondition) StacksTransaction :=
  let* defaultOptions :=
    newObject {| fee := 0;
                 feeEstimateApiUrl := DEFAULT_FEE_ESTIMATE_API_URL;
                 nonce := 0;
                 version := DEFAULT_TRANSACTION_VERSION C;
                 chainId := DEFAULT_CHAIN_ID C;
                 anchorMode := Any;
                 postConditionMode := Deny;
                 memo := None;
                 postConditions := None |} in
  let* normalizedOptions := Object_assign defaultOptions options in
  let payload :=
    createContractCallPayload contractAddress contractName functionName functionArgs in
  let addressHashMode := SerializeP2PKH in
  let privKey := createStacksPrivateKey C senderKey in
  let pubKey := getPublicKey C privKey in
  let* normalizedOptions_nonce := getProperty normalizedOptions nonce in
  let* normalizedOptions_fee := getProperty normalizedOptions fee in
  let spendingCondition :=
    new_SingleSigSpendingCondition C addressHashMode (publicKeyToString C pubKey)
      normalizedOptions_nonce normalizedOptions_fee in
  let authorization := new_StandardAuthorization C spendingCondition in
  let* normalizedOptions_postConditions := getProperty normalizedOptions postConditions in
  let postConditions := pushPostConditions normalizedOptions_postConditions in
  let lpPostConditions := createLPList postConditions in
  let* normalizedOptions_version := getProperty normalizedOptions version in
  let* normalizedOptions_postConditionMode :=
    getProperty normalizedOptions postConditionMode in
  let* normalizedOptions_anchorMode := getProperty normalizedOptions anchorMode in
  let* normalizedOptions_chainId := getProperty normalizedOptions chainId in
  let transaction :=
    new_StacksTransaction normalizedOptions_version authorization payload
      lpPostConditions normalizedOptions_postConditionMode
      normalizedOptions_anchorMode normalizedOptions_chainId in
  let* transaction :=
    match explicitFee options with
    | None =>
        let* normalizedOptions_feeEstimateApiUrl :=
          getProperty normalizedOptions feeEstimateApiUrl in
        let* txFee :=
          liftPromise
            (await (estimateContractFunctionCall transaction
                      (Some normalizedOptions_feeEstimateApiUrl))) in
        ret (setFee transaction txFee)
    | Some _ => ret transaction
    end in
  let transaction := signOrigin transaction privKey in
  ret transaction.
End Builders.

Arguments tx_version {_ _} _.
Arguments auth {_ _} _.
Arguments payload {_ _} _.
Arguments tx_postConditions {_ _} _.
Arguments tx_postConditionMode {_ _} _.
Arguments tx_anchorMode {_ _} _.
Arguments tx_chainId {_ _} _.
Arguments new_StacksTransaction {_ _} _ _ _ _ _ _ _.
Arguments setFee {_ _ _ _ _} C _ _.
Arguments signOrigin {_ _ _ _ _} C _ _.
Arguments DEFAULT_FEE_ESTIMATE_API_URL {_ _ _ _ _} C.
Arguments orDefaultUrl {_ _ _ _ _} C _.
Arguments fetchFee {_ _ _ _ _} C _ _.
Arguments estimateTransfer {_ _ _ _ _} C _ _.
Arguments estimateContractDeploy {_ _ _ _ _} C _ _.
Arguments estimateContractFunctionCall {_ _ _ _ _} C _ _.
Arguments pushPostConditions {_} _.
Arguments makeSTXTokenTransfer {_ _ _ _ _} C _ _ _ _.
Arguments makeSmartContractDeploy {_ _ _ _ _} C _ _ _ _.
Arguments makeContractCall {_ _ _ _ _} C _ _ _ _ _ _.

(** * Specification vocabulary and example inputs *)

(** What it takes for a declared entry to be satisfied by the fields of a
    tuple value: the field is there and its value matches the entry's type. *)
Definition entrySatisfied (tuple : gmap string ClarityValue)
           (entry : string * ClarityAbiType) : Prop :=
  exists val, tuple !! entry.1 = Some val /\ matchType val entry.2 = true.

(** The functions of the ABI that bear the called name. *)
Definition resolveFunction (payload : ContractCallPayload) (abi : ClarityAbi)
  : list ClarityAbiFunction :=
  filter (fun fn => name fn = content (functionName payload)) (functions abi).

(** The argument at position [j] is there, is declared, and matches. *)
Definition argMatches (payload : ContractCallPayload)
           (abiArgs : list (string * ClarityAbiType)) (j : nat) : Prop :=
  exists payloadArg abiArg,
    functionArgs payload !! j = Some payloadArg
    /\ abiArgs !! j = Some abiArg
    /\ matchType payloadArg abiArg.2 = true.

(** The union [encodeClarityValue] switches on. *)
Definition unionOf (input : ClarityAbiTypeUnion + ClarityAbiType) : ClarityAbiTypeUnion :=
  match input with
  | inl union => union
  | inr type => getTypeUnion type
  end.

(** The ids of the response, optional, tuple and list types. *)
Definition compositeId (i : ClarityAbiTypeId) : bool :=
  match i with
  | ClarityAbiTypeResponse | ClarityAbiTypeOptional
  | ClarityAbiTypeTuple | ClarityAbiTypeList => true
  | _ => false
  end.

(** The anchor mode left in [defaultOptions] by [Object.assign]: the caller's
    when the options carry one, [AnchorMode.Any] otherwise. *)
Definition mergedAnchorMode {PostCondition : Type}
           (options : option (Options PostCondition)) : AnchorMode :=
  match options with
  | Some options => default Any (opt_anchorMode options)
  | None => Any
  end.

(** Modelled from the spec: [getCVTypeString] is declared in [./clarity], which
    is not among the source files.  The spec (§8) gives "int" as the type
    string of an Int128 value; this stand-in names the other scalar values the
    way [getTypeString] names their types, and wraps the contents of an
    optional or a response. *)
Fixpoint exampleCVTypeString (cv : ClarityValue) : string :=
  match cv with
  | BoolTrue | BoolFalse => "bool"
  | IntCV _ => "int"
  | UIntCV _ => "uint"
  | BufferCV buffer => "(buff " +:+ pretty (List.length buffer) +:+ ")"
  | OptionalNone => "(optional none)"
  | OptionalSome value => "(optional " +:+ exampleCVTypeString value +:+ ")"
  | ResponseOk value => "(responseOk " +:+ exampleCVTypeString value +:+ ")"
  | ResponseErr value => "(responseError " +:+ exampleCVTypeString value +:+ ")"
  | PrincipalStandard _ _ | PrincipalContract _ _ _ => "principal"
  | ListCV list => "(list " +:+ pretty (List.length list) +:+ ")"
  | TupleCV _ => "(tuple)"
  end.

(** A function [transfer] that expects (uint128, bool), alone in its ABI. *)
Definition transferFunction : ClarityAbiFunction :=
  {| name := "transfer";
     access := public;
     args := [("amount", AbiPrimitive uint128); ("final", AbiPrimitive bool_)];
     outputs := AbiResponse (AbiPrimitive bool_) (AbiPrimitive uint128) |}.

Definition transferAbi : ClarityAbi :=
  {| functions := [transferFunction];
     variables := [];
     maps := [];
     fungible_tokens := [];
     non_fungible_tokens := [] |}.

Definition callTransfer (functionArgs : list ClarityValue) : ContractCallPayload :=
  {| contractAddress := "SPBMRFRPPGCDE3F384WCJPK8PQJGZ8K9QKK7F59X";
     contractName := {| content := "contract_name" |};
     functionName := {| content := "transfer" |};
     functionArgs := functionArgs |}.

(** A tuple value with the fields a, b and c, one without b, and declared
    tuple types that name a and b, and a twice. *)
Definition tupleABC : gmap string ClarityValue :=
  {[ "a" := IntCV 1; "b" := BoolTrue; "c" := BoolFalse ]}.

Definition tupleAC : gmap string ClarityValue :=
  {[ "a" := IntCV 1; "c" := BoolFalse ]}.

Definition entriesAB : list (string * ClarityAbiType) :=
  [("a", AbiPrimitive int128); ("b", AbiPrimitive bool_)].

Definition entriesAA : list (string * ClarityAbiType) :=
  [("a", AbiPrimitive int128); ("a", AbiPrimitive int128)].

(** Collaborators that keep what they are given: a key is its hex string, a
    spending condition is the tuple of the constructor's arguments and an
    authorization pairs it with the key that signed, if any. *)
Definition exampleCollaborators
  : Collaborators unit (AddressHashMode * string * Z * Z)
      ((AddressHashMode * string * Z * Z) * option string) string string :=
  {| DEFAULT_CORE_NODE_API_URL := "http://neon.blockstack.org:20443";
     DEFAULT_TRANSACTION_VERSION := 0;
     DEFAULT_CHAIN_ID := 1;
     createStacksPrivateKey := fun key => key;
     getPublicKey := fun privKey => privKey;
     publicKeyToString := fun pubKey => pubKey;
     new_SingleSigSpendingCondition :=
       fun hashMode pubKey nonce fee => (hashMode, pubKey, nonce, fee);
     new_StandardAuthorization := fun spendingCondition => (spendingCondition, None);
     authSetFee :=
       fun auth txFee =>
         let '((hashMode, pubKey, nonce, _), signature) := auth in
         ((hashMode, pubKey, nonce, txFee), signature);
     authSignOrigin := fun transaction privKey => ((auth transaction).1, Some privKey);
     serializedByteLength := fun _ => 180;
     BigNum_of_string := fun _ => 1 |}.

(** The options of a caller who asks for on-chain anchoring and gives a fee. *)
Definition onChainOptions : Options unit :=
  {| opt_fee := Some 200;
     opt_feeEstimateApiUrl := None;
     opt_nonce := None;
     opt_version := None;
     opt_chainId := None;
     opt_anchorMode := Some OnChainOnly;
     opt_memo := Some "test memo";
     opt_postConditionMode := None;
     opt_postConditions := None |}.

(** The ids of the declared types a value can match, by the case of
    [matchType] that handles the value. *)
Definition acceptedIds (cv : ClarityValue) : list ClarityAbiTypeId :=
  match cv with
  | BoolTrue | BoolFalse => [ClarityAbiTypeBool]
  | IntCV _ => [ClarityAbiTypeInt128]
  | UIntCV _ => [ClarityAbiTypeUInt128]
  | BufferCV _ => [ClarityAbiTypeBuffer]
  | OptionalNone => [ClarityAbiTypeNone; ClarityAbiTypeOptional]
  | OptionalSome _ => [ClarityAbiTypeOptional]
  | ResponseOk _ | ResponseErr _ => [ClarityAbiTypeResponse]
  | PrincipalStandard _ _ | PrincipalContract _ _ _ => [ClarityAbiTypePrincipal]
  | ListCV _ => [ClarityAbiTypeList]
  | TupleCV _ => [ClarityAbiTypeTuple]
  end.

(** Two values of the same shape: they differ at most in the truth of a
    boolean, the number an integer holds, the bytes (not the length) of a
    buffer and the address and kind of a principal, at any depth. *)
Inductive sameShape : ClarityValue -> ClarityValue -> Prop :=
| shape_bool (a b : ClarityValue) :
    a = BoolTrue \/ a = BoolFalse -> b = BoolTrue \/ b = BoolFalse -> sameShape a b
| shape_int (m n : Z) : sameShape (IntCV m) (IntCV n)
| shape_uint (m n : Z) : sameShape (UIntCV m) (UIntCV n)
| shape_buffer (a b : list Byte.byte) :
    List.length a = List.length b -> sameShape (BufferCV a) (BufferCV b)
| shape_none : sameShape OptionalNone OptionalNone
| shape_some (a b : ClarityValue) :
    sameShape a b -> sameShape (OptionalSome a) (OptionalSome b)
| shape_ok (a b : ClarityValue) :
    sameShape a b -> sameShape (ResponseOk a) (ResponseOk b)
| shape_err (a b : ClarityValue) :
    sameShape a b -> sameShape (ResponseErr a) (ResponseErr b)
| shape_principal (a b : ClarityValue) :
    acceptedIds a = [ClarityAbiTypePrincipal] ->
    acceptedIds b = [ClarityAbiTypePrincipal] -> sameShape a b
| shape_list (a b : list ClarityValue) :
    Forall2 sameShape a b -> sameShape (ListCV a) (ListCV b)
| shape_tuple (a b : gmap string ClarityValue) :
    (forall key, option_Forall2 sameShape (a !! key) (b !! key)) ->
    sameShape (TupleCV a) (TupleCV b).

(** Two ABIs whose functions have, one by one, the same name and the same
    argument types; access, outputs, argument names and the other sections of
    the ABI are free. *)
Definition sameSignatures (abi abi' : ClarityAbi) : Prop :=
  Forall2 (fun fn fn' => name fn = name fn' /\ (args fn).*2 = (args fn').*2)
          (functions abi) (functions abi').

(** The ABI of [transfer] again, the function now private, its arguments
    renamed, its output changed and a variable declared beside it. *)
Definition privateTransferAbi : ClarityAbi :=
  {| functions :=
       [ {| name := "transfer";
            access := private;
            args := [("n", AbiPrimitive uint128); ("last", AbiPrimitive bool_)];
            outputs := AbiPrimitive bool_ |} ];
     variables :=
       [ {| variable_name := "total";
            variable_access := variable;
            variable_type := AbiPrimitive uint128 |} ];
     maps := [];
     fungible_tokens := [];
     non_fungible_tokens := [] |}.

(** The value of a property after the merge of the caller's options into the
    defaults: the caller's when the options carry the property, the fallback
    otherwise. *)
Definition chosen {PostCondition A : Type} (property : Options PostCondition -> option A)
           (fallback : A) (options : option (Options PostCondition)) : A :=
  match options with
  | Some options => default fallback (property options)
  | None => fallback
  end.

Arguments DEFAULT_CORE_NODE_API_URL {_ _ _ _ _} _.
Arguments DEFAULT_TRANSACTION_VERSION {_ _ _ _ _} _.
Arguments DEFAULT_CHAIN_ID {_ _ _ _ _} _.
Arguments createStacksPrivateKey {_ _ _ _ _} _ _.
Arguments getPublicKey {_ _ _ _ _} _ _.
Arguments publicKeyToString {_ _ _ _ _} _ _.
Arguments new_SingleSigSpendingCondition {_ _ _ _ _} _ _ _ _ _.
Arguments new_StandardAuthorization {_ _ _ _ _} _ _.
Arguments authSetFee {_ _ _ _ _} _ _ _.
Arguments authSignOrigin {_ _ _ _ _} _ _ _.
Arguments serializedByteLength {_ _ _ _ _} _ _.
Arguments BigNum_of_string {_ _ _ _ _} _ _.

Section BuiltTransactions.
Context {PostCondition SpendingCondition Authorization : Type}
        {StacksPrivateKey StacksPublicKey : Type}.
Variable C : Collaborators PostCondition SpendingCondition Authorization
               StacksPrivateKey StacksPublicKey.

(** The transaction a builder hands to fee estimation and signing: a
    single-signature standard authorization for the sender's key with the
    chosen nonce and fee, the payload, the caller's post-conditions and the
    chosen modes, version and chain id. *)
Definition unsignedTransaction (payload : Payload) (senderKey : string)
           (options : option (Options PostCondition))
  : StacksTransaction PostCondition Authorization :=
  new_StacksTransaction
    (chosen opt_version (DEFAULT_TRANSACTION_VERSION C) options)
    (new_StandardAuthorization C
       (new_SingleSigSpendingCondition C SerializeP2PKH
          (publicKeyToString C (getPublicKey C (createStacksPrivateKey C senderKey)))
          (chosen opt_nonce 0 options) (chosen opt_fee 0 options)))
    payload
    (createLPList (chosen opt_postConditions [] options))
    (chosen opt_postConditionMode Deny options)
    (chosen opt_anchorMode Any options)
    (chosen opt_chainId (DEFAULT_CHAIN_ID C) options).

(** The token transfer before it is signed, and the signing step of
    [makeSTXTokenTransfer], which an empty sender key skips. *)
Definition unsignedTransfer (recipient : string + ClarityValue) (amount : BigNum)
           (senderKey : string) (options : option (Options PostCondition))
  : StacksTransaction PostCondition Authorization :=
  unsignedTransaction
    (createTokenTransferPayload recipient amount
       (Some (chosen opt_memo EmptyString options)))
    senderKey options.

Definition signedUnlessKeyless (senderKey : string)
           (transaction : StacksTransaction PostCondition Authorization)
  : StacksTransaction PostCondition Authorization :=
  if bool_decide (senderKey = EmptyString) then transaction
  else signOrigin C transaction (createStacksPrivateKey C senderKey).

(** The fee an estimator computes from the text of the response. *)
Definition estimatedFee (transaction : StacksTransaction PostCondition Authorization)
           (feeRateResult : string) : BigNum :=
  BigNum_of_string C feeRateResult * serializedByteLength C transaction.
End BuiltTransactions.

(** * Properties of [matchType] *)

Lemma matchType_TupleCV_AbiTuple (data : gmap string ClarityValue)
      (entries : list (string * ClarityAbiType)) :
  matchType (TupleCV data) (AbiTuple entries)
  = matchTupleEntries matchType entries data.
Proof. reflexivity. Qed.

Lemma entrySatisfied_delete (key : string) (tuple : gmap string ClarityValue)
      (rest : list (string * ClarityAbiType)) :
  Forall (entrySatisfied (delete key tuple)) rest
  <-> (key ∉ rest.*1) /\ Forall (entrySatisfied tuple) rest.
Proof.
  induction rest as [|[k t] rest IH]; simpl.
  - split; [intros _; split; [apply not_elem_of_nil | constructor] | constructor].
  - rewrite !Forall_cons, IH, not_elem_of_cons. unfold entrySatisfied at 1 3; simpl.
    split.
    + intros [(val & Hval & Hm) [Hnotin Hrest]].
      apply lookup_delete_Some in Hval as [Hne Hval]. eauto 8.
    + intros [[Hne Hnotin] [(val & Hval & Hm) Hrest]].
      split; [|auto]. exists val. split; [|done].
      apply lookup_delete_Some. auto.
Qed.

(** The loop succeeds exactly when no declared name occurs twice and every
    declared entry is satisfied. *)
Lemma matchTupleEntries_true (entries : list (string * ClarityAbiType))
      (tuple : gmap string ClarityValue) :
  matchTupleEntries matchType entries tuple = true
  <-> NoDup entries.*1 /\ Forall (entrySatisfied tuple) entries.
Proof.
  revert tuple. induction entries as [|[key entryType] rest IH]; intros tuple; simpl.
  - split; [intros _; split; constructor | done].
  - rewrite NoDup_cons, Forall_cons. unfold entrySatisfied at 1; simpl.
    destruct (tuple !! key) as [val|] eqn:Hval.
    + destruct (matchType val entryType) eqn:Hm; simpl.
      * rewrite IH, entrySatisfied_delete. split.
        -- intros (Hnd & Hnotin & Hrest). eauto 8.
        -- intros [[Hnotin Hnd] [_ Hrest]]. auto.
      * split; [done|]. intros [_ [(v & Hv & Hmv) _]]. congruence.
    + split; [done|]. intros [_ [(v & Hv & _) _]]. congruence.
Qed.

(** C3: a buffer value matches a declared buffer type exactly when the
    declared length is the number of bytes of the value's buffer. *)
Theorem matchType_buffer (buffer : list Byte.byte) (length : Z) :
  (matchType (BufferCV buffer) (AbiBuffer length) = true
   <-> length = Z.of_nat (List.length buffer))
  /\ (length <> Z.of_nat (List.length buffer) ->
      matchType (BufferCV buffer) (AbiBuffer length) = false).
Proof.
  simpl. split.
  - apply Z.eqb_eq.
  - apply Z.eqb_neq.
Qed.

(** C2: a list value matches a declared list type exactly when the declared
    length is the number of elements and every element matches the declared
    element type. *)
Theorem matchType_list (list : list ClarityValue) (type : ClarityAbiType) (length : Z) :
  matchType (ListCV list) (AbiList type length) = true
  <-> length = Z.of_nat (List.length list)
      /\ Forall (fun val => matchType val type = true) list.
Proof.
  simpl. rewrite andb_true_iff, Z.eqb_eq, forallb_forall, Forall_forall.
  split.
  - intros [Hlen Hall]. split; [done|]. intros val Hin. apply Hall.
    by apply list_elem_of_In.
  - intros [Hlen Hall]. split; [done|]. intros val Hin. apply Hall.
    by apply list_elem_of_In.
Qed.

(** C10: [OptionalNone] matches the primitive type none and every optional
    type, whatever its inner type; [OptionalSome v] matches a declared type
    exactly when that type is an optional type whose inner type [v] matches. *)
Theorem matchType_optional :
  matchType OptionalNone (AbiPrimitive none) = true
  /\ (forall T : ClarityAbiType, matchType OptionalNone (AbiOptional T) = true)
  /\ (forall (v : ClarityValue) (abiType : ClarityAbiType),
        matchType (OptionalSome v) abiType = true
        <-> exists T, abiType = AbiOptional T /\ matchType v T = true).
Proof.
  split; [reflexivity|]. split; [reflexivity|].
  intros v abiType. split.
  - destruct abiType; simpl; try discriminate. eauto.
  - intros (T & -> & Hm). exact Hm.
Qed.

(** C1 (as amended): for a declared tuple type whose field names are pairwise
    distinct, a tuple value matches exactly when every declared field is
    present in the value with a value matching the declared field type;
    fields of the value that the declared type does not name play no part. *)
Theorem matchType_tuple (data : gmap string ClarityValue)
        (entries : list (string * ClarityAbiType)) :
  NoDup entries.*1 ->
  (matchType (TupleCV data) (AbiTuple entries) = true
   <-> Forall (entrySatisfied data) entries).
Proof.
  intros Hnd. rewrite matchType_TupleCV_AbiTuple, matchTupleEntries_true. tauto.
Qed.

(** * Properties of [validateContractCall] *)

Section ValidateContractCallProperties.
Variable getCVTypeString : ClarityValue -> string.

Lemma validateArgsFrom_all_match (payload : ContractCallPayload)
      (abiArgs : list (string * ClarityAbiType)) (remaining i : nat) :
  (forall j, (i <= j < i + remaining)%nat -> argMatches payload abiArgs j) ->
  validateArgsFrom getCVTypeString payload abiArgs remaining i = Return true.
Proof.
  revert i. induction remaining as [|remaining IH]; intros i Hall; simpl; [done|].
  destruct (Hall i) as (a & t & -> & -> & Hm); [lia|].
  rewrite Hm. simpl. apply IH. intros j Hj. apply Hall. lia.
Qed.

Lemma validateArgsFrom_first_mismatch (payload : ContractCallPayload)
      (abiArgs : list (string * ClarityAbiType)) (remaining i k : nat)
      (payloadArg : ClarityValue) (abiArg : string * ClarityAbiType) :
  (i <= k < i + remaining)%nat ->
  (forall j, (i <= j < k)%nat -> argMatches payload abiArgs j) ->
  functionArgs payload !! k = Some payloadArg ->
  abiArgs !! k = Some abiArg ->
  matchType payloadArg abiArg.2 = false ->
  validateArgsFrom getCVTypeString payload abiArgs remaining i
  = Throw (ArgumentTypeMismatch (content (functionName payload)) (k + 1)
             (getTypeString abiArg.2) (getCVTypeString payloadArg)).
Proof.
  revert i. induction remaining as [|remaining IH]; intros i Hk Hbefore Ha Ht Hm;
    simpl; [lia|].
  destruct (decide (i = k)) as [->|Hne].
  - rewrite Ha, Ht, Hm. reflexivity.
  - destruct (Hbefore i) as (a & t & -> & -> & Hmi); [lia|].
    rewrite Hmi. simpl. apply IH; try done; [lia|].
    intros j Hj. apply Hbefore. lia.
Qed.

(** C5: when exactly one function bears the called name, a wrong number of
    arguments raises ArgumentCountMismatch; with the right number, the
    lowest position whose argument fails [matchType] raises
    ArgumentTypeMismatch for that position, whatever the later arguments
    are; and the call is valid when every argument matches. *)
Theorem validateContractCall_argument_errors (payload : ContractCallPayload)
        (abi : ClarityAbi) (abiFunc : ClarityAbiFunction) :
  resolveFunction payload abi = [abiFunc] ->
  (length (functionArgs payload) <> length (args abiFunc) ->
   validateContractCall getCVTypeString payload abi
   = Throw (ArgumentCountMismatch (length (args abiFunc))
              (length (functionArgs payload))))
  /\ (length (functionArgs payload) = length (args abiFunc) ->
      forall (i : nat) (payloadArg : ClarityValue) (abiArg : string * ClarityAbiType),
        functionArgs payload !! i = Some payloadArg ->
        args abiFunc !! i = Some abiArg ->
        matchType payloadArg abiArg.2 = false ->
        (forall j, (j < i)%nat -> argMatches payload (args abiFunc) j) ->
        validateContractCall getCVTypeString payload abi
        = Throw (ArgumentTypeMismatch (content (functionName payload)) (i + 1)
                   (getTypeString abiArg.2) (getCVTypeString payloadArg)))
  /\ (length (functionArgs payload) = length (args abiFunc) ->
      (forall j, (j < length (functionArgs payload))%nat ->
                 argMatches payload (args abiFunc) j) ->
      validateContractCall getCVTypeString payload abi = Return true).
Proof.
  intros Hone. unfold validateContractCall. fold (resolveFunction payload abi).
  rewrite Hone. repeat split.
  - intros Hlen. apply Nat.eqb_neq in Hlen. by rewrite Hlen.
  - intros Hlen i payloadArg abiArg Ha Ht Hm Hbefore.
    rewrite Hlen, Nat.eqb_refl. simpl.
    apply validateArgsFrom_first_mismatch; try done.
    + apply lookup_lt_Some in Ht. lia.
    + intros j Hj. apply Hbefore. lia.
  - intros Hlen Hall. rewrite Hlen, Nat.eqb_refl. simpl.
    apply validateArgsFrom_all_match. intros j Hj. apply Hall. lia.
Qed.

(** C6: no function of the called name raises FunctionNotFound, more than
    one raises AmbiguousAbi, and the arguments are only validated when
    exactly one function bears the name. *)
Theorem validateContractCall_resolution (payload : ContractCallPayload)
        (abi : ClarityAbi) :
  (length (resolveFunction payload abi) = 0%nat ->
   validateContractCall getCVTypeString payload abi
   = Throw (FunctionNotFound (content (functionName payload))))
  /\ ((1 < length (resolveFunction payload abi))%nat ->
      validateContractCall getCVTypeString payload abi
      = Throw (AmbiguousAbi (content (functionName payload))))
  /\ (validateContractCall getCVTypeString payload abi = Return true ->
      length (resolveFunction payload abi) = 1%nat)
  /\ (forall abiFunc, resolveFunction payload abi = [abiFunc] ->
      validateContractCall getCVTypeString payload abi
      = if negb (Nat.eqb (length (functionArgs payload)) (length (args abiFunc)))
        then Throw (ArgumentCountMismatch (length (args abiFunc))
                      (length (functionArgs payload)))
        else validateArgsFrom getCVTypeString payload (args abiFunc)
               (length (functionArgs payload)) 0).
Proof.
  unfold validateContractCall. fold (resolveFunction payload abi).
  destruct (resolveFunction payload abi) as [|abiFunc [|other rest]]; simpl;
    repeat split; try done; try lia.
  by intros f [= <-].
Qed.

(** C4: against an ABI whose only function of the called name expects
    (uint128, bool), the arguments (UInt128(10), BoolTrue) are valid, and
    the arguments (Int128(10), BoolTrue) raise ArgumentTypeMismatch for the
    first argument, expected uint, actual int (the type string of an
    Int128 value). *)
Theorem validateContractCall_uint_bool (payload : ContractCallPayload)
        (abi : ClarityAbi) (abiFunc : ClarityAbiFunction) :
  resolveFunction payload abi = [abiFunc] ->
  (args abiFunc).*2 = [AbiPrimitive uint128; AbiPrimitive bool_] ->
  getCVTypeString (IntCV 10) = "int" ->
  (functionArgs payload = [UIntCV 10; BoolTrue] ->
   validateContractCall getCVTypeString payload abi = Return true)
  /\ (functionArgs payload = [IntCV 10; BoolTrue] ->
      validateContractCall getCVTypeString payload abi
      = Throw (ArgumentTypeMismatch (content (functionName payload)) 1
                 "uint" "int")).
Proof.
  intros Hone Hargs Hint. unfold validateContractCall.
  fold (resolveFunction payload abi). rewrite Hone.
  destruct (args abiFunc) as [|[n1 t1] [|[n2 t2] [|? ?]]]; try discriminate.
  simpl in Hargs. injection Hargs as -> ->.
  split; intros Hgiven; rewrite Hgiven; simpl; rewrite Hgiven; simpl; [done|].
  by rewrite Hint.
Qed.
End ValidateContractCallProperties.

(** * Properties of [encodeClarityValue] *)

Section EncodeClarityValueProperties.
Variables (uintCV intCV standardPrincipalCV : string -> Result ClarityValue)
          (contractPrincipalCV : string -> option string -> Result ClarityValue)
          (bufferCV : list Byte.byte -> Result ClarityValue)
          (JSON_stringify : string -> string)
          (Buffer_from_utf8 : string -> list Byte.byte).

Lemma encodeClarityValue_composite_id
      (input : ClarityAbiTypeUnion + ClarityAbiType) (val : string) :
  compositeId (id (unionOf input)) = true ->
  encodeClarityValue uintCV intCV standardPrincipalCV contractPrincipalCV bufferCV
    JSON_stringify Buffer_from_utf8 input val
  = Throw (UnsupportedAbiEncoding (id (unionOf input))).
Proof.
  unfold encodeClarityValue. fold (unionOf input).
  destruct (id (unionOf input)); simpl; intros; try discriminate; reflexivity.
Qed.

(** C7: whatever the input string, a declared response, optional, tuple or
    list type makes [encodeClarityValue] throw the not-implemented error
    UnsupportedAbiEncoding; a value is only ever returned for a primitive or
    a buffer type. *)
Theorem encodeClarityValue_unsupported (val : string) :
  (forall ok error,
      encodeClarityValue uintCV intCV standardPrincipalCV contractPrincipalCV bufferCV
        JSON_stringify Buffer_from_utf8 (inr (AbiResponse ok error)) val
      = Throw (NotImplementedError "Unsupported encoding for Clarity type: 7"))
  /\ (forall optional,
      encodeClarityValue uintCV intCV standardPrincipalCV contractPrincipalCV bufferCV
        JSON_stringify Buffer_from_utf8 (inr (AbiOptional optional)) val
      = Throw (NotImplementedError "Unsupported encoding for Clarity type: 8"))
  /\ (forall tuple,
      encodeClarityValue uintCV intCV standardPrincipalCV contractPrincipalCV bufferCV
        JSON_stringify Buffer_from_utf8 (inr (AbiTuple tuple)) val
      = Throw (NotImplementedError "Unsupported encoding for Clarity type: 9"))
  /\ (forall type length,
      encodeClarityValue uintCV intCV standardPrincipalCV contractPrincipalCV bufferCV
        JSON_stringify Buffer_from_utf8 (inr (AbiList type length)) val
      = Throw (NotImplementedError "Unsupported encoding for Clarity type: 10"))
  /\ (forall input cv,
      encodeClarityValue uintCV intCV standardPrincipalCV contractPrincipalCV bufferCV
        JSON_stringify Buffer_from_utf8 input val = Return cv ->
      compositeId (id (unionOf input)) = false)
  /\ (forall type cv,
      encodeClarityValue uintCV intCV standardPrincipalCV contractPrincipalCV bufferCV
        JSON_stringify Buffer_from_utf8 (inr type) val = Return cv ->
      (exists p, type = AbiPrimitive p) \/ (exists length, type = AbiBuffer length)).
Proof.
  repeat split; try reflexivity.
  - intros input cv Hcv.
    destruct (compositeId (id (unionOf input))) eqn:Hid; [|done].
    rewrite encodeClarityValue_composite_id in Hcv by done. discriminate.
  - intros type cv Hcv. destruct type; eauto; discriminate.
Qed.
End EncodeClarityValueProperties.

(** * Properties of the builders *)

Section StoreLemmas.
Context {O A B : Type}.

Lemma bind_newObject (o : O) (k : positive -> Async O B) (store : gmap positive O) :
  bind (newObject o) k store
  = k (fresh (dom store)) (<[fresh (dom store) := o]> store).
Proof. reflexivity. Qed.

Lemma bind_getProperty (r : positive) (property : O -> A) (k : A -> Async O B)
      (store : gmap positive O) (o : O) :
  store !! r = Some o ->
  bind (getProperty r property) k store = k (property o) store.
Proof. intros Hr. unfold bind, getProperty. by rewrite Hr. Qed.

Lemma bind_ret (a : A) (k : A -> Async O B) (store : gmap positive O) :
  bind (ret a) k store = k a store.
Proof. reflexivity. Qed.

Lemma bind_bind_getProperty {B' : Type} (r : positive) (property : O -> A)
      (g : A -> Async O B') (k : B' -> Async O B) (store : gmap positive O) (o : O) :
  store !! r = Some o ->
  bind (bind (getProperty r property) g) k store = bind (g (property o)) k store.
Proof. intros Hr. unfold bind, getProperty. by rewrite Hr. Qed.
End StoreLemmas.

Lemma bind_Object_assign {PostCondition B : Type} (target : positive)
      (source : option (Options PostCondition))
      (k : positive -> Async (OptionsObject PostCondition) B)
      (store : gmap positive (OptionsObject PostCondition))
      (o : OptionsObject PostCondition) :
  store !! target = Some o ->
  bind (Object_assign target source) k store
  = k target (<[target := assignProperties o source]> store).
Proof. intros Hr. unfold bind, Object_assign. by rewrite Hr. Qed.

Lemma anchorMode_assignProperties {PostCondition : Type}
      (target : OptionsObject PostCondition) (source : option (Options PostCondition)) :
  anchorMode target = Any ->
  anchorMode (assignProperties target source) = mergedAnchorMode source.
Proof. intros Hany. destruct source as [source|]; simpl; [|done]. by rewrite Hany. Qed.

Ltac store_step :=
  first
    [ rewrite bind_newObject
    | erewrite bind_Object_assign by apply lookup_insert_eq
    | erewrite bind_getProperty by apply lookup_insert_eq
    | erewrite bind_bind_getProperty by apply lookup_insert_eq
    | rewrite bind_ret ];
  cbv beta zeta.

Section BuilderProperties.
Context {PostCondition SpendingCondition Authorization : Type}
        {StacksPrivateKey StacksPublicKey : Type}.
Variable C : Collaborators PostCondition SpendingCondition Authorization
               StacksPrivateKey StacksPublicKey.

(** C8: on a transaction whose payload is not a token transfer,
    [estimateContractDeploy] and [estimateContractFunctionCall] throw
    'Transaction is not a token transfer' and return no promise, so nothing
    is fetched; [makeSmartContractDeploy] and [makeContractCall] called
    without a fee build such a transaction and are rejected with that
    error. *)
Theorem estimate_contract_fee_throws :
  (forall (transaction : StacksTransaction PostCondition Authorization)
          (apiUrl : option string),
      payloadType (payload transaction) <> TokenTransfer ->
      estimateContractDeploy C transaction apiUrl
      = Throw (Error "Transaction is not a token transfer")
      /\ estimateContractFunctionCall C transaction apiUrl
         = Throw (Error "Transaction is not a token transfer"))
  /\ (forall contractName codeBody senderKey options store,
      explicitFee options = None ->
      makeSmartContractDeploy C contractName codeBody senderKey options store
      = Rejected (Error "Transaction is not a token transfer"))
  /\ (forall contractAddress contractName functionName functionArgs senderKey
             options store,
      explicitFee options = None ->
      makeContractCall C contractAddress contractName functionName
        functionArgs senderKey options store
      = Rejected (Error "Transaction is not a token transfer")).
Proof.
  split; [|split].
  - intros transaction apiUrl Hnot.
    unfold estimateContractDeploy, estimateContractFunctionCall.
    destruct (payloadType (payload transaction)); simpl; [done | done | done].
  - intros contractName codeBody senderKey options store Hfee.
    unfold makeSmartContractDeploy. rewrite Hfee.
    repeat store_step. reflexivity.
  - intros contractAddress contractName functionName functionArgs senderKey
      options store Hfee.
    unfold makeContractCall. rewrite Hfee.
    repeat store_step. reflexivity.
Qed.

Lemma makeSTXTokenTransfer_explicit_fee recipient amount senderKey
      (options : option (Options PostCondition)) store (f : BigNum) :
  explicitFee options = Some f ->
  exists transaction store',
    makeSTXTokenTransfer C recipient amount senderKey options store
    = Resolved (transaction, store')
    /\ tx_anchorMode transaction = mergedAnchorMode options.
Proof.
  intros Hfee. unfold makeSTXTokenTransfer. rewrite Hfee.
  repeat store_step. eexists _, _. split; [reflexivity|].
  destruct (bool_decide (senderKey = EmptyString)); simpl;
    by apply anchorMode_assignProperties.
Qed.

Lemma makeSTXTokenTransfer_estimated_fee recipient amount senderKey
      (options : option (Options PostCondition)) store (feeRateResult : string) :
  explicitFee options = None ->
  exists transaction store',
    settle [Return feeRateResult]
      (makeSTXTokenTransfer C recipient amount senderKey options store)
    = Some (Return (transaction, store'))
    /\ tx_anchorMode transaction = mergedAnchorMode options.
Proof.
  intros Hfee. unfold makeSTXTokenTransfer. rewrite Hfee.
  repeat store_step. eexists _, _. split; [reflexivity|].
  destruct (bool_decide (senderKey = EmptyString)); simpl;
    by apply anchorMode_assignProperties.
Qed.

Lemma makeSmartContractDeploy_explicit_fee contractName codeBody senderKey
      (options : option (Options PostCondition)) store (f : BigNum) :
  explicitFee options = Some f ->
  exists transaction store',
    makeSmartContractDeploy C contractName codeBody senderKey options store
    = Resolved (transaction, store')
    /\ tx_anchorMode transaction = mergedAnchorMode options.
Proof.
  intros Hfee. unfold makeSmartContractDeploy. rewrite Hfee.
  repeat store_step. eexists _, _. split; [reflexivity|].
  simpl. by apply anchorMode_assignProperties.
Qed.

Lemma makeContractCall_explicit_fee contractAddress contractName functionName
      functionArgs senderKey (options : option (Options PostCondition)) store
      (f : BigNum) :
  explicitFee options = Some f ->
  exists transaction store',
    makeContractCall C contractAddress contractName functionName functionArgs
      senderKey options store
    = Resolved (transaction, store')
    /\ tx_anchorMode transaction = mergedAnchorMode options.
Proof.
  intros Hfee. unfold makeContractCall. rewrite Hfee.
  repeat store_step. eexists _, _. split; [reflexivity|].
  simpl. by apply anchorMode_assignProperties.
Qed.

(** C9 (as amended): the transaction [makeSTXTokenTransfer] builds carries
    the anchor mode of the merged options, the caller's when the options
    give one and [AnchorMode.Any] otherwise, with a given fee and with an
    estimated one; [makeSmartContractDeploy] and [makeContractCall] called
    with a fee carry the merged anchor mode too. *)
Theorem builders_anchorMode :
  (forall recipient amount senderKey (options : option (Options PostCondition))
          store feeRateResult,
      exists transaction store',
        settle [Return feeRateResult]
          (makeSTXTokenTransfer C recipient amount senderKey options store)
        = Some (Return (transaction, store'))
        /\ tx_anchorMode transaction = mergedAnchorMode options)
  /\ (forall contractName codeBody senderKey (options : option (Options PostCondition))
             store f,
      explicitFee options = Some f ->
      exists transaction store',
        makeSmartContractDeploy C contractName codeBody senderKey options store
        = Resolved (transaction, store')
        /\ tx_anchorMode transaction = mergedAnchorMode options)
  /\ (forall contractAddress contractName functionName functionArgs senderKey
             (options : option (Options PostCondition)) store f,
      explicitFee options = Some f ->
      exists transaction store',
        makeContractCall C contractAddress contractName functionName functionArgs
          senderKey options store
        = Resolved (transaction, store')
        /\ tx_anchorMode transaction = mergedAnchorMode options).
Proof.
  split; [|split].
  - intros recipient amount senderKey options store feeRateResult.
    destruct (explicitFee options) as [f|] eqn:Hfee.
    + destruct (makeSTXTokenTransfer_explicit_fee recipient amount senderKey
                  options store f Hfee) as (transaction & store' & Hrun & Hmode).
      exists transaction, store'. by rewrite Hrun.
    + by apply makeSTXTokenTransfer_estimated_fee.
  - intros. by eapply makeSmartContractDeploy_explicit_fee.
  - intros. by eapply makeContractCall_explicit_fee.
Qed.
End BuilderProperties.

Example tuple_subset_examples :
  matchType (TupleCV tupleABC) (AbiTuple entriesAB) = true
  /\ matchType (TupleCV tupleAC) (AbiTuple entriesAB) = false
  /\ matchType (TupleCV tupleAC) (AbiTuple entriesAA) = false.
Proof. vm_compute. auto. Qed.

Example split_example :
  split "."%char "SP3FGQ8Z.contract.extra" = ("SP3FGQ8Z", ["contract"; "extra"])
  /\ split "."%char "SP3FGQ8Z." = ("SP3FGQ8Z", [EmptyString])
  /\ includes "."%char "SP3FGQ8Z" = false.
Proof. vm_compute. auto. Qed.

Example getTypeString_example :
  getTypeString
    (AbiTuple [("a", AbiList (AbiBuffer 20) 3); ("b", AbiOptional (AbiPrimitive uint128))])
  = "(tuple (a (list 3 (buff 20))) (b (optional uint)))".
Proof. vm_compute. reflexivity. Qed.

Example makeSTXTokenTransfer_example :
  exists transaction store',
    makeSTXTokenTransfer exampleCollaborators
      (inl "SP3FGQ8Z7JY9BWYZ5WM53E0M9NK7WHJF0691NZ159") 12345 "b244296d" (Some onChainOptions) ∅
    = Resolved (transaction, store')
    /\ tx_anchorMode transaction = OnChainOnly.
Proof. vm_compute. eauto. Qed.

(** C1, counterexample: the declared tuple type that names the field a twice
    is not matched by the value with the fields a and c, although each of its
    entries finds its field in the value with a matching value. *)
Lemma duplicate_declared_name_not_matched :
  ~ (matchType (TupleCV tupleAC) (AbiTuple entriesAA) = true
     <-> Forall (entrySatisfied tupleAC) entriesAA).
Proof.
  intros [_ Hclaim].
  assert (Hall : Forall (entrySatisfied tupleAC) entriesAA).
  { repeat constructor; exists (IntCV 1); split; vm_compute; reflexivity. }
  specialize (Hclaim Hall). vm_compute in Hclaim. discriminate.
Qed.

(** C1, witness: the value with the fields a, b and c matches the declared
    type that names a and b; the value without b does not. *)
Lemma matchType_tuple_witness :
  NoDup entriesAB.*1
  /\ matchType (TupleCV tupleABC) (AbiTuple entriesAB) = true
  /\ matchType (TupleCV tupleAC) (AbiTuple entriesAB) = false.
Proof.
  assert (Hnd : NoDup entriesAB.*1) by exact (bool_decide_unpack (NoDup entriesAB.*1) I).
  split; [exact Hnd|]. split.
  - apply (matchType_tuple tupleABC entriesAB Hnd).
    repeat constructor; eexists; split; vm_compute; reflexivity.
  - apply not_true_is_false. intros Hm.
    apply (matchType_tuple tupleAC entriesAB Hnd) in Hm.
    apply Forall_cons in Hm as [_ Hb]. apply Forall_cons in Hb as [(val & Hval & _) _].
    vm_compute in Hval. discriminate.
Defined.

(** C4, witness: the two calls of the spec against the ABI of [transfer],
    with the message the source builds. *)
Lemma validateContractCall_uint_bool_witness :
  resolveFunction (callTransfer [UIntCV 10; BoolTrue]) transferAbi = [transferFunction]
  /\ (args transferFunction).*2 = [AbiPrimitive uint128; AbiPrimitive bool_]
  /\ exampleCVTypeString (IntCV 10) = "int"
  /\ validateContractCall exampleCVTypeString (callTransfer [UIntCV 10; BoolTrue])
       transferAbi = Return true
  /\ validateContractCall exampleCVTypeString (callTransfer [IntCV 10; BoolTrue])
       transferAbi
     = Throw (Error
                "Clarity function `transfer` expects argument 1 to be of type uint, not int").
Proof.
  split; [vm_compute; reflexivity|]. split; [reflexivity|]. split; [reflexivity|]. split.
  - apply (validateContractCall_uint_bool exampleCVTypeString
             (callTransfer [UIntCV 10; BoolTrue]) transferAbi transferFunction);
      reflexivity.
  - transitivity (@Throw bool (ArgumentTypeMismatch "transfer" 1 "uint" "int"));
      [|vm_compute; reflexivity].
    apply (validateContractCall_uint_bool exampleCVTypeString
             (callTransfer [IntCV 10; BoolTrue]) transferAbi transferFunction);
      reflexivity.
Defined.

(** C5, witness: with the arguments (Int128(10), UInt128(3)) both positions
    fail to match and the error names the first; with one argument the count
    is wrong. *)
Lemma validateContractCall_argument_errors_witness :
  resolveFunction (callTransfer [IntCV 10; UIntCV 3]) transferAbi = [transferFunction]
  /\ validateContractCall exampleCVTypeString (callTransfer [IntCV 10; UIntCV 3])
       transferAbi
     = Throw (ArgumentTypeMismatch "transfer" 1 "uint" "int")
  /\ validateContractCall exampleCVTypeString (callTransfer [UIntCV 10]) transferAbi
     = Throw (ArgumentCountMismatch 2 1).
Proof.
  split; [vm_compute; reflexivity|]. split.
  - apply (proj1 (proj2 (validateContractCall_argument_errors exampleCVTypeString
                           (callTransfer [IntCV 10; UIntCV 3]) transferAbi
                           transferFunction ltac:(vm_compute; reflexivity)))
                 eq_refl 0%nat (IntCV 10) ("amount", AbiPrimitive uint128)
                 eq_refl eq_refl eq_refl).
    intros j Hj. lia.
  - apply (proj1 (validateContractCall_argument_errors exampleCVTypeString
                    (callTransfer [UIntCV 10]) transferAbi
                    transferFunction ltac:(vm_compute; reflexivity))).
    simpl. lia.
Defined.

(** C9, counterexample: the caller asks for on-chain anchoring and the
    transaction [makeSTXTokenTransfer] builds is anchored on-chain only, not
    by the default mode. *)
Lemma makeSTXTokenTransfer_anchorMode_not_default :
  exists transaction store',
    makeSTXTokenTransfer exampleCollaborators
      (inl "SP3FGQ8Z7JY9BWYZ5WM53E0M9NK7WHJF0691NZ159") 12345
      "b244296d5907de9864c0b0d51f98a13c52890be0404e83f273144cd5b9960eed01"
      (Some onChainOptions) ∅
    = Resolved (transaction, store')
    /\ opt_anchorMode onChainOptions = Some OnChainOnly
    /\ tx_anchorMode transaction = OnChainOnly
    /\ tx_anchorMode transaction <> Any.
Proof. vm_compute. eexists _, _. repeat split. discriminate. Qed.

(** * Further properties of [matchType] *)

Lemma id_eqb_eq (a b : ClarityAbiTypeId) : id_eqb a b = true <-> a = b.
Proof. destruct a, b; simpl; split; intros H; try reflexivity; discriminate. Qed.

(** An induction principle that reaches the types of the entries of a
    declared tuple. *)
Lemma ClarityAbiType_nested_ind (P : ClarityAbiType -> Prop) :
  (forall p, P (AbiPrimitive p)) ->
  (forall length, P (AbiBuffer length)) ->
  (forall ok error, P ok -> P error -> P (AbiResponse ok error)) ->
  (forall optional, P optional -> P (AbiOptional optional)) ->
  (forall tuple, Forall (fun entry => P entry.2) tuple -> P (AbiTuple tuple)) ->
  (forall type length, P type -> P (AbiList type length)) ->
  forall abiType, P abiType.
Proof.
  intros Hprim Hbuf Hresp Hopt Htuple Hlist.
  fix IH 1. intros [p|length|ok error|optional|tuple|type length].
  - apply Hprim.
  - apply Hbuf.
  - apply Hresp; apply IH.
  - apply Hopt; apply IH.
  - apply Htuple. induction tuple as [|[key entryType] rest IHrest].
    + constructor.
    + constructor; [apply IH | exact IHrest].
  - apply Hlist; apply IH.
Qed.

(** X1: a boolean matches the declared type bool and no other, an Int128
    value int128 only, a UInt128 value uint128 only, and a principal of
    either kind the type principal only. *)
Theorem scalar_values_match_their_type (abiType : ClarityAbiType) :
  (matchType BoolTrue abiType = true <-> abiType = AbiPrimitive bool_)
  /\ (matchType BoolFalse abiType = true <-> abiType = AbiPrimitive bool_)
  /\ (forall n, matchType (IntCV n) abiType = true <-> abiType = AbiPrimitive int128)
  /\ (forall n, matchType (UIntCV n) abiType = true <-> abiType = AbiPrimitive uint128)
  /\ (forall version hash160,
        matchType (PrincipalStandard version hash160) abiType = true
        <-> abiType = AbiPrimitive principal)
  /\ (forall version hash160 contractName,
        matchType (PrincipalContract version hash160 contractName) abiType = true
        <-> abiType = AbiPrimitive principal).
Proof.
  destruct abiType as [[]| | | | |]; simpl; repeat split;
    intros; try reflexivity; try discriminate.
Qed.

(** X2: [OptionalNone] matches the type none and the optional types, and no
    other declared type. *)
Theorem none_matches_only_none_and_optional (abiType : ClarityAbiType) :
  matchType OptionalNone abiType = true
  <-> abiType = AbiPrimitive none \/ exists T, abiType = AbiOptional T.
Proof.
  destruct abiType as [[]| | | | |]; simpl; split; intros H;
    try reflexivity; try discriminate; eauto;
    destruct H as [H|[T H]]; discriminate.
Qed.

(** X3: a [ResponseOk] value matches exactly the response types whose ok
    type its content matches, whatever their error type; a [ResponseErr]
    value exactly those whose error type its content matches, whatever their
    ok type. *)
Theorem response_values_check_one_side (value : ClarityValue) (abiType : ClarityAbiType) :
  (matchType (ResponseOk value) abiType = true
   <-> exists ok error, abiType = AbiResponse ok error /\ matchType value ok = true)
  /\ (matchType (ResponseErr value) abiType = true
      <-> exists ok error, abiType = AbiResponse ok error /\ matchType value error = true).
Proof.
  split; split.
  - destruct abiType; simpl; try discriminate. eauto.
  - intros (ok & error & -> & Hm). exact Hm.
  - destruct abiType; simpl; try discriminate. eauto.
  - intros (ok & error & -> & Hm). exact Hm.
Qed.

(** X4: a value only matches declared types of the shapes its variant
    accepts: the id [getTypeUnion] gives the matched type is among the ids
    accepted for the value, and [getTypeUnion] keeps the type. *)
Theorem matched_type_has_accepted_id (cv : ClarityValue) (abiType : ClarityAbiType) :
  matchType cv abiType = true ->
  id (getTypeUnion abiType) ∈ acceptedIds cv
  /\ type (getTypeUnion abiType) = abiType.
Proof.
  intros Hm. split.
  - destruct cv, abiType as [[]| | | | |]; simpl in *;
      try discriminate; set_solver.
  - destruct abiType as [[]| | | | |]; reflexivity.
Qed.

Lemma matched_type_has_accepted_id_witness :
  matchType (OptionalSome (UIntCV 7)) (AbiOptional (AbiPrimitive uint128)) = true
  /\ id (getTypeUnion (AbiOptional (AbiPrimitive uint128)))
       ∈ acceptedIds (OptionalSome (UIntCV 7)).
Proof.
  split; [reflexivity|].
  apply (matched_type_has_accepted_id (OptionalSome (UIntCV 7))
           (AbiOptional (AbiPrimitive uint128))).
  reflexivity.
Defined.

Lemma entrySatisfied_weaken (small large : gmap string ClarityValue)
      (entry : string * ClarityAbiType) :
  small ⊆ large -> entrySatisfied small entry -> entrySatisfied large entry.
Proof.
  intros Hsub (val & Hval & Hm). exists val. split; [|exact Hm].
  by eapply lookup_weaken.
Qed.

(** X5: a declared tuple type that names a field twice is matched by no
    tuple value. *)
Theorem repeated_declared_name_never_matches (data : gmap string ClarityValue)
        (entries : list (string * ClarityAbiType)) :
  ~ NoDup entries.*1 ->
  matchType (TupleCV data) (AbiTuple entries) = false.
Proof.
  intros Hdup. apply not_true_is_false. intros Hm.
  rewrite matchType_TupleCV_AbiTuple in Hm.
  apply matchTupleEntries_true in Hm as [Hnd _]. by apply Hdup.
Qed.

Lemma repeated_declared_name_never_matches_witness :
  ~ NoDup entriesAA.*1
  /\ matchType (TupleCV tupleABC) (AbiTuple entriesAA) = false.
Proof.
  assert (Hdup : ~ NoDup entriesAA.*1).
  { intros Hnd. apply NoDup_cons in Hnd as [Hnotin _]. apply Hnotin. by left. }
  split; [exact Hdup|].
  exact (repeated_declared_name_never_matches tupleABC entriesAA Hdup).
Defined.

(** X6: the order in which a declared tuple type lists its fields does not
    change which tuple values match it. *)
Theorem declared_field_order_is_irrelevant (data : gmap string ClarityValue)
        (entries entries' : list (string * ClarityAbiType)) :
  entries ≡ₚ entries' ->
  matchType (TupleCV data) (AbiTuple entries)
  = matchType (TupleCV data) (AbiTuple entries').
Proof.
  intros Hperm. rewrite !matchType_TupleCV_AbiTuple.
  apply eq_true_iff_eq. rewrite !matchTupleEntries_true.
  by rewrite Hperm.
Qed.

Lemma declared_field_order_is_irrelevant_witness :
  entriesAB ≡ₚ reverse entriesAB
  /\ matchType (TupleCV tupleABC) (AbiTuple (reverse entriesAB)) = true.
Proof.
  assert (Hperm : entriesAB ≡ₚ reverse entriesAB) by (symmetry; apply reverse_Permutation).
  split; [exact Hperm|].
  rewrite <- (declared_field_order_is_irrelevant tupleABC entriesAB
                (reverse entriesAB) Hperm).
  vm_compute. reflexivity.
Defined.

(** X7: a tuple value that matches a declared tuple type still matches it
    after fields are added to the value. *)
Theorem added_fields_keep_the_match (small large : gmap string ClarityValue)
        (entries : list (string * ClarityAbiType)) :
  small ⊆ large ->
  matchType (TupleCV small) (AbiTuple entries) = true ->
  matchType (TupleCV large) (AbiTuple entries) = true.
Proof.
  intros Hsub. rewrite !matchType_TupleCV_AbiTuple, !matchTupleEntries_true.
  intros [Hnd Hall]. split; [exact Hnd|].
  eapply Forall_impl; [exact Hall|]. intros entry. by apply entrySatisfied_weaken.
Qed.

Lemma added_fields_keep_the_match_witness :
  delete "c" tupleABC ⊆ tupleABC
  /\ matchType (TupleCV (delete "c" tupleABC)) (AbiTuple entriesAB) = true
  /\ matchType (TupleCV tupleABC) (AbiTuple entriesAB) = true.
Proof.
  assert (Hsub : delete "c" tupleABC ⊆ tupleABC) by apply delete_subseteq.
  assert (Hsmall : matchType (TupleCV (delete "c" tupleABC)) (AbiTuple entriesAB) = true)
    by (vm_compute; reflexivity).
  split; [exact Hsub|]. split; [exact Hsmall|].
  exact (added_fields_keep_the_match (delete "c" tupleABC) tupleABC entriesAB
           Hsub Hsmall).
Defined.

Lemma sameShape_delete (key : string) (a b : gmap string ClarityValue) :
  (forall k, option_Forall2 sameShape (a !! k) (b !! k)) ->
  forall k, option_Forall2 sameShape (delete key a !! k) (delete key b !! k).
Proof.
  intros Hab k. destruct (decide (key = k)) as [->|Hne].
  - rewrite !lookup_delete_eq. constructor.
  - rewrite !lookup_delete_ne by done. apply Hab.
Qed.

Lemma sameShape_tuple_entries (entries : list (string * ClarityAbiType)) :
  Forall (fun entry => forall cv cv', sameShape cv cv' ->
                                      matchType cv entry.2 = matchType cv' entry.2)
         entries ->
  forall a b : gmap string ClarityValue,
    (forall k, option_Forall2 sameShape (a !! k) (b !! k)) ->
    matchTupleEntries matchType entries a = matchTupleEntries matchType entries b.
Proof.
  induction 1 as [|[key entryType] rest Hhead _ IH]; intros a b Hab; simpl; [done|].
  destruct (Hab key) as [val val' Hval|]; [|done].
  simpl in Hhead. rewrite (Hhead val val' Hval).
  destruct (matchType val' entryType); simpl; [|done].
  apply IH. by apply sameShape_delete.
Qed.

Lemma sameShape_list_elements (type : ClarityAbiType) (a b : list ClarityValue) :
  (forall cv cv', sameShape cv cv' -> matchType cv type = matchType cv' type) ->
  Forall2 sameShape a b ->
  forallb (fun val => matchType val type) a = forallb (fun val => matchType val type) b.
Proof.
  intros IH. induction 1 as [|x y a b Hxy _ IHab]; simpl; [done|].
  by rewrite (IH x y Hxy), IHab.
Qed.

(** X8: [matchType] looks at the shape of a value only: two values that
    differ in the truth of booleans, the numbers of integers, the bytes of
    buffers of equal length or the addresses of principals, at any depth,
    match the same declared types. *)
Theorem values_of_same_shape_match_alike (cv cv' : ClarityValue) :
  sameShape cv cv' ->
  forall abiType, matchType cv abiType = matchType cv' abiType.
Proof.
  intros Hshape abiType. revert cv cv' Hshape.
  induction abiType as [p|length|ok error IHok IHerror|optional IHoptional
                        |tuple IHtuple|type length IHtype]
    using ClarityAbiType_nested_ind;
    intros cv cv' Hshape;
    destruct Hshape as [a b [->| ->] [->| ->]| | |a b Hlen| |a b Hab|a b Hab|a b Hab
                        |a b Ha Hb|a b Hab|a b Hab];
    try reflexivity;
    try (destruct a; try discriminate Ha; destruct b; try discriminate Hb; reflexivity).
  - simpl. by rewrite Hlen.
  - simpl. by apply IHok.
  - simpl. by apply IHerror.
  - simpl. by apply IHoptional.
  - rewrite !matchType_TupleCV_AbiTuple. by apply sameShape_tuple_entries.
  - simpl. rewrite (Forall2_length _ _ _ Hab).
    by rewrite (sameShape_list_elements type a b IHtype Hab).
Qed.

Lemma values_of_same_shape_match_alike_witness :
  sameShape (ListCV [IntCV 1; IntCV (-5)]) (ListCV [IntCV 0; IntCV 170])
  /\ matchType (ListCV [IntCV 0; IntCV 170]) (AbiList (AbiPrimitive int128) 2) = true.
Proof.
  assert (Hshape : sameShape (ListCV [IntCV 1; IntCV (-5)]) (ListCV [IntCV 0; IntCV 170]))
    by (repeat constructor).
  split; [exact Hshape|].
  rewrite <- (values_of_same_shape_match_alike _ _ Hshape
                (AbiList (AbiPrimitive int128) 2)).
  reflexivity.
Defined.

(** * Further properties of [validateContractCall] *)

Section ValidateContractCallOutcomes.
Variable getCVTypeString : ClarityValue -> string.

Lemma validateArgsFrom_true (payload : ContractCallPayload)
      (abiArgs : list (string * ClarityAbiType)) (remaining i : nat) :
  validateArgsFrom getCVTypeString payload abiArgs remaining i = Return true ->
  forall j, (i <= j < i + remaining)%nat -> argMatches payload abiArgs j.
Proof.
  revert i. induction remaining as [|remaining IH]; intros i Hrun j Hj; [lia|].
  simpl in Hrun.
  destruct (functionArgs payload !! i) as [payloadArg|] eqn:Ha; [|discriminate].
  destruct (abiArgs !! i) as [abiArg|] eqn:Ht; [|discriminate].
  destruct (matchType payloadArg abiArg.2) eqn:Hm; [|discriminate]. simpl in Hrun.
  destruct (decide (j = i)) as [->|Hne].
  - by exists payloadArg, abiArg.
  - apply (IH (S i) Hrun). lia.
Qed.

Lemma validateArgsFrom_outcome (payload : ContractCallPayload)
      (abiArgs : list (string * ClarityAbiType)) (remaining i : nat) :
  (i + remaining <= length (functionArgs payload))%nat ->
  (i + remaining <= length abiArgs)%nat ->
  validateArgsFrom getCVTypeString payload abiArgs remaining i = Return true
  \/ exists k payloadArg abiArg,
      functionArgs payload !! k = Some payloadArg
      /\ abiArgs !! k = Some abiArg
      /\ matchType payloadArg abiArg.2 = false
      /\ validateArgsFrom getCVTypeString payload abiArgs remaining i
         = Throw (ArgumentTypeMismatch (content (functionName payload)) (k + 1)
                    (getTypeString abiArg.2) (getCVTypeString payloadArg)).
Proof.
  revert i. induction remaining as [|remaining IH]; intros i Hargs Habi; simpl;
    [by left|].
  destruct (lookup_lt_is_Some_2 (functionArgs payload) i) as [payloadArg Ha]; [lia|].
  destruct (lookup_lt_is_Some_2 abiArgs i) as [abiArg Ht]; [lia|].
  rewrite Ha, Ht. destruct (matchType payloadArg abiArg.2) eqn:Hm; simpl.
  - apply IH; lia.
  - right. by exists i, payloadArg, abiArg.
Qed.

(** X9: a call is valid exactly when one function of the ABI bears the
    called name and the arguments match its declared argument types one by
    one, in number and in order. *)
Theorem call_is_valid_iff (payload : ContractCallPayload) (abi : ClarityAbi) :
  validateContractCall getCVTypeString payload abi = Return true
  <-> exists abiFunc,
      resolveFunction payload abi = [abiFunc]
      /\ Forall2 (fun payloadArg abiArg => matchType payloadArg abiArg.2 = true)
                 (functionArgs payload) (args abiFunc).
Proof.
  unfold validateContractCall. fold (resolveFunction payload abi).
  destruct (resolveFunction payload abi) as [|abiFunc [|other rest]].
  - split; [discriminate | by intros (f & Hf & _)].
  - setoid_rewrite Forall2_same_length_lookup.
    destruct (Nat.eqb (length (functionArgs payload)) (length (args abiFunc))) eqn:Hlen;
      simpl.
    + apply Nat.eqb_eq in Hlen. split.
      * intros Hrun. exists abiFunc. split; [done|]. split; [done|].
        intros j payloadArg abiArg Ha Ht.
        destruct (validateArgsFrom_true _ _ _ _ Hrun j) as (a & t & Ha' & Ht' & Hm).
        { apply lookup_lt_Some in Ha. lia. }
        congruence.
      * intros (f & [= <-] & _ & Hall).
        apply validateArgsFrom_all_match. intros j Hj.
        destruct (lookup_lt_is_Some_2 (functionArgs payload) j) as [a Ha]; [lia|].
        destruct (lookup_lt_is_Some_2 (args abiFunc) j) as [t Ht]; [lia|].
        exists a, t. eauto.
    + apply Nat.eqb_neq in Hlen. split; [discriminate|].
      intros (f & [= <-] & Hsame & _). done.
  - split; [discriminate | by intros (f & Hf & _)].
Qed.

(** X10: whatever the payload and the ABI, [validateContractCall] returns
    true or throws one of its four errors; it never returns false, and the
    argument and its declared type are always there when the loop reads
    them. *)
Theorem call_validation_outcomes (payload : ContractCallPayload) (abi : ClarityAbi) :
  validateContractCall getCVTypeString payload abi = Return true
  \/ validateContractCall getCVTypeString payload abi
     = Throw (FunctionNotFound (content (functionName payload)))
  \/ validateContractCall getCVTypeString payload abi
     = Throw (AmbiguousAbi (content (functionName payload)))
  \/ (exists abiFunc,
        resolveFunction payload abi = [abiFunc]
        /\ length (functionArgs payload) <> length (args abiFunc)
        /\ validateContractCall getCVTypeString payload abi
           = Throw (ArgumentCountMismatch (length (args abiFunc))
                      (length (functionArgs payload))))
  \/ (exists abiFunc k payloadArg abiArg,
        resolveFunction payload abi = [abiFunc]
        /\ functionArgs payload !! k = Some payloadArg
        /\ args abiFunc !! k = Some abiArg
        /\ matchType payloadArg abiArg.2 = false
        /\ validateContractCall getCVTypeString payload abi
           = Throw (ArgumentTypeMismatch (content (functionName payload)) (k + 1)
                      (getTypeString abiArg.2) (getCVTypeString payloadArg))).
Proof.
  unfold validateContractCall. fold (resolveFunction payload abi).
  destruct (resolveFunction payload abi) as [|abiFunc [|other rest]]; [auto| |auto].
  destruct (Nat.eqb (length (functionArgs payload)) (length (args abiFunc))) eqn:Hlen;
    simpl.
  - apply Nat.eqb_eq in Hlen.
    destruct (validateArgsFrom_outcome payload (args abiFunc)
                (length (functionArgs payload)) 0) as [Hok|(k & a & t & Ha & Ht & Hm & Hrun)];
      [lia | lia | auto |].
    do 4 right. by exists abiFunc, k, a, t.
  - apply Nat.eqb_neq in Hlen. do 3 right. left. by exists abiFunc.
Qed.
End ValidateContractCallOutcomes.

Section ValidateContractCallSignatures.
Variable getCVTypeString : ClarityValue -> string.

Lemma validateArgsFrom_argument_types (payload : ContractCallPayload)
      (abiArgs abiArgs' : list (string * ClarityAbiType)) (remaining i : nat) :
  abiArgs.*2 = abiArgs'.*2 ->
  validateArgsFrom getCVTypeString payload abiArgs remaining i
  = validateArgsFrom getCVTypeString payload abiArgs' remaining i.
Proof.
  intros Htypes. revert i. induction remaining as [|remaining IH]; intros i; simpl; [done|].
  assert (Hi : snd <$> abiArgs !! i = snd <$> abiArgs' !! i)
    by (rewrite <- !list_lookup_fmap; by rewrite Htypes).
  destruct (functionArgs payload !! i) as [payloadArg|]; [|done].
  destruct (abiArgs !! i) as [[n t]|], (abiArgs' !! i) as [[n' t']|];
    simpl in Hi; try discriminate; [|done].
  injection Hi as ->. simpl. by rewrite IH.
Qed.

Lemma resolveFunction_signatures (payload : ContractCallPayload) (abi abi' : ClarityAbi) :
  sameSignatures abi abi' ->
  Forall2 (fun fn fn' => name fn = name fn' /\ (args fn).*2 = (args fn').*2)
          (resolveFunction payload abi) (resolveFunction payload abi').
Proof.
  unfold sameSignatures, resolveFunction.
  induction 1 as [|fn fn' fns fns' [Hname Hargs] _ IH]; [constructor|].
  rewrite !filter_cons. rewrite <- Hname.
  destruct (decide (name fn = content (functionName payload))); [|exact IH].
  by constructor.
Qed.

(** X11: the result of [validateContractCall] depends on the names and the
    argument types of the functions of the ABI only: the access of a function
    (a private function validates like a public one), its outputs, the names
    of its arguments and the variables, maps and tokens of the ABI change
    neither the verdict nor the error. *)
Theorem validation_reads_signatures_only (payload : ContractCallPayload)
        (abi abi' : ClarityAbi) :
  sameSignatures abi abi' ->
  validateContractCall getCVTypeString payload abi
  = validateContractCall getCVTypeString payload abi'.
Proof.
  intros Hsame. apply (resolveFunction_signatures payload) in Hsame.
  unfold validateContractCall.
  fold (resolveFunction payload abi). fold (resolveFunction payload abi').
  destruct Hsame as [|fn fn' fns fns' [Hname Hargs] Hrest]; [done|].
  destruct Hrest; [|done].
  assert (Hlen : length (args fn) = length (args fn')).
  { rewrite <- (length_fmap snd (args fn)), Hargs. apply length_fmap. }
  rewrite Hlen.
  destruct (Nat.eqb (length (functionArgs payload)) (length (args fn'))); simpl; [|done].
  by apply validateArgsFrom_argument_types.
Qed.
End ValidateContractCallSignatures.

Lemma validation_reads_signatures_only_witness :
  sameSignatures transferAbi privateTransferAbi
  /\ validateContractCall exampleCVTypeString (callTransfer [UIntCV 10; BoolTrue])
       privateTransferAbi = Return true.
Proof.
  assert (Hsame : sameSignatures transferAbi privateTransferAbi)
    by (repeat constructor).
  split; [exact Hsame|].
  rewrite <- (validation_reads_signatures_only exampleCVTypeString
                (callTransfer [UIntCV 10; BoolTrue]) transferAbi privateTransferAbi Hsame).
  vm_compute. reflexivity.
Defined.

(** * Further properties of [encodeClarityValue] *)

Lemma split_without_separator (c : ascii) (s : string) :
  includes c s = false -> split c s = (s, []).
Proof.
  induction s as [|a s IH]; simpl; [done|].
  intros Hno. apply orb_false_iff in Hno as [Ha Hs].
  by rewrite (IH Hs), Ha.
Qed.

Lemma split_at_first_separator (c : ascii) (before after : string) :
  includes c before = false ->
  split c (before +:+ String c after)
  = (before, (split c after).1 :: (split c after).2).
Proof.
  induction before as [|a before IH]; simpl.
  - intros _. rewrite Ascii.eqb_refl. by destruct (split c after).
  - intros Hno. apply orb_false_iff in Hno as [Ha Hs].
    by rewrite (IH Hs), Ha.
Qed.

Lemma includes_separator (c : ascii) (before after : string) :
  includes c (before +:+ String c after) = true.
Proof.
  induction before as [|a before IH]; simpl.
  - by rewrite Ascii.eqb_refl.
  - rewrite IH. apply orb_true_r.
Qed.

Lemma append_empty_right (s : string) : s +:+ EmptyString = s.
Proof.
  induction s as [|a s IH]; [done|].
  change (String a (s +:+ EmptyString) = String a s). by rewrite IH.
Qed.

Section EncodeClarityValueCoercions.
Variables (uintCV intCV standardPrincipalCV : string -> Result ClarityValue)
          (contractPrincipalCV : string -> option string -> Result ClarityValue)
          (bufferCV : list Byte.byte -> Result ClarityValue)
          (JSON_stringify : string -> string)
          (Buffer_from_utf8 : string -> list Byte.byte).

(** X12: for the declared type bool, the strings false and 0 give the false
    value, the strings true and 1 give the true value, and every other
    string throws an Error that quotes it. *)
Theorem bool_strings (val : string) :
  (encodeClarityValue uintCV intCV standardPrincipalCV contractPrincipalCV bufferCV
     JSON_stringify Buffer_from_utf8 (inr (AbiPrimitive bool_)) val = Return BoolFalse
   <-> val = "false" \/ val = "0")
  /\ (encodeClarityValue uintCV intCV standardPrincipalCV contractPrincipalCV bufferCV
        JSON_stringify Buffer_from_utf8 (inr (AbiPrimitive bool_)) val = Return BoolTrue
      <-> val = "true" \/ val = "1")
  /\ (val <> "false" -> val <> "0" -> val <> "true" -> val <> "1" ->
      encodeClarityValue uintCV intCV standardPrincipalCV contractPrincipalCV bufferCV
        JSON_stringify Buffer_from_utf8 (inr (AbiPrimitive bool_)) val
      = Throw (Error ("Unexpected Clarity bool value: " +:+ JSON_stringify val))).
Proof.
  unfold encodeClarityValue, falseCV, trueCV. simpl.
  repeat case_bool_decide; subst; simpl; repeat split;
    try discriminate; try congruence; auto;
    intros [?|?]; congruence.
Qed.

(** X13: a value coerced from a string for the declared type bool or none
    matches that declared type; for none the string is not looked at. *)
Theorem coerced_value_matches_declared_type (val : string) :
  (forall cv,
      encodeClarityValue uintCV intCV standardPrincipalCV contractPrincipalCV bufferCV
        JSON_stringify Buffer_from_utf8 (inr (AbiPrimitive bool_)) val = Return cv ->
      matchType cv (AbiPrimitive bool_) = true)
  /\ encodeClarityValue uintCV intCV standardPrincipalCV contractPrincipalCV bufferCV
       JSON_stringify Buffer_from_utf8 (inr (AbiPrimitive none)) val
     = Return OptionalNone
  /\ matchType OptionalNone (AbiPrimitive none) = true.
Proof.
  split; [|split; reflexivity].
  intros cv. unfold encodeClarityValue, falseCV, trueCV. simpl.
  repeat case_bool_decide; simpl; intros [= <-]; reflexivity.
Qed.

(** X14: for the declared type principal, a string without a dot goes to
    [standardPrincipalCV] whole; a string with dots goes to
    [contractPrincipalCV] with the text before the first dot and the text
    between the first and the second dot, and what follows a second dot is
    dropped. *)
Theorem principal_strings (val : string) :
  (includes "."%char val = false ->
   encodeClarityValue uintCV intCV standardPrincipalCV contractPrincipalCV bufferCV
     JSON_stringify Buffer_from_utf8 (inr (AbiPrimitive principal)) val
   = standardPrincipalCV val)
  /\ (forall addr name tail,
        includes "."%char addr = false ->
        includes "."%char name = false ->
        tail = EmptyString \/ (exists more, tail = String "."%char more) ->
        val = addr +:+ String "."%char (name +:+ tail) ->
        encodeClarityValue uintCV intCV standardPrincipalCV contractPrincipalCV bufferCV
          JSON_stringify Buffer_from_utf8 (inr (AbiPrimitive principal)) val
        = contractPrincipalCV addr (Some name)).
Proof.
  unfold encodeClarityValue. simpl. split.
  - intros Hno. by rewrite Hno.
  - intros addr name tail Haddr Hname Htail ->.
    rewrite includes_separator, (split_at_first_separator _ _ _ Haddr).
    destruct Htail as [->|[more ->]].
    + by rewrite append_empty_right, (split_without_separator _ _ Hname).
    + by rewrite (split_at_first_separator _ _ _ Hname).
Qed.
End EncodeClarityValueCoercions.

(** * Further properties of the builders *)

Lemma pushPostConditions_default {PostCondition : Type}
      (given : option (list PostCondition)) :
  pushPostConditions given = default [] given.
Proof.
  destruct given as [given|]; simpl; [|done].
  assert (Hpush : forall pushed : list PostCondition,
             foldl (fun pushed pc => (pushed ++ [pc])%list) pushed given
             = (pushed ++ given)%list).
  { induction given as [|pc given IH]; intros pushed; simpl.
    - by rewrite app_nil_r.
    - by rewrite IH, <- app_assoc. }
  destruct given as [|pc given]; [done|].
  change (0 <? length (pc :: given))%nat with true. cbv iota. apply (Hpush []).
Qed.

(** X18: the loop that pushes the caller's post-conditions one by one keeps
    them all, in the caller's order; no list or an empty list gives none. *)
Theorem pushed_post_conditions_keep_order {PostCondition : Type} :
  (forall given : list PostCondition, pushPostConditions (Some given) = given)
  /\ pushPostConditions (@None (list PostCondition)) = []
  /\ (forall given : list PostCondition,
        length (pushPostConditions (Some given)) = length given).
Proof.
  split; [|split].
  - intros given. apply (pushPostConditions_default (Some given)).
  - reflexivity.
  - intros given. by rewrite (pushPostConditions_default (Some given)).
Qed.

Section EstimatorProperties.
Context {PostCondition SpendingCondition Authorization : Type}
        {StacksPrivateKey StacksPublicKey : Type}.
Variable C : Collaborators PostCondition SpendingCondition Authorization
               StacksPrivateKey StacksPublicKey.

(** X15: on a token-transfer transaction each of the three estimators
    returns a promise that makes one GET request, to the given URL or, when
    the URL is missing or empty, to the default fee endpoint; the promise
    resolves to the fee rate of the response times the byte length of the
    transaction, and is rejected with the error of a failed fetch. *)
Theorem estimators_on_token_transfer
        (transaction : StacksTransaction PostCondition Authorization)
        (apiUrl : option string) :
  payloadType (payload transaction) = TokenTransfer ->
  let url :=
    match apiUrl with
    | Some given => if bool_decide (given = EmptyString)
                    then DEFAULT_CORE_NODE_API_URL C +:+ "/v2/fees/transfer"
                    else given
    | None => DEFAULT_CORE_NODE_API_URL C +:+ "/v2/fees/transfer"
    end in
  exists k,
    estimateTransfer C transaction apiUrl
    = Return (AwaitFetch url {| method := "GET";
                                headers := [("Accept", "application/text")] |} k)
    /\ estimateContractDeploy C transaction apiUrl = estimateTransfer C transaction apiUrl
    /\ estimateContractFunctionCall C transaction apiUrl
       = estimateTransfer C transaction apiUrl
    /\ (forall feeRateResult,
          k (Return feeRateResult)
          = Resolved (BigNum_of_string C feeRateResult
                      * serializedByteLength C transaction))
    /\ (forall e, k (Throw e) = Rejected e).
Proof.
  intros Htransfer url.
  unfold estimateTransfer, estimateContractDeploy, estimateContractFunctionCall.
  rewrite Htransfer. simpl. eexists. split; [reflexivity|]. auto.
Qed.
End EstimatorProperties.

Lemma estimators_on_token_transfer_witness :
  payloadType
    (payload (unsignedTransfer exampleCollaborators
                (inl "SP3FGQ8Z7JY9BWYZ5WM53E0M9NK7WHJF0691NZ159") 12345 "b244296d" None))
  = TokenTransfer
  /\ settle [Return "1"]
       (await (estimateTransfer exampleCollaborators
                 (unsignedTransfer exampleCollaborators
                    (inl "SP3FGQ8Z7JY9BWYZ5WM53E0M9NK7WHJF0691NZ159") 12345 "b244296d"
                    None)
                 None))
     = Some (Return 180).
Proof.
  split; [reflexivity|].
  destruct (estimators_on_token_transfer exampleCollaborators
              (unsignedTransfer exampleCollaborators
                 (inl "SP3FGQ8Z7JY9BWYZ5WM53E0M9NK7WHJF0691NZ159") 12345 "b244296d" None)
              None eq_refl) as (k & Hrun & _ & _ & Hk & _).
  rewrite Hrun. simpl. rewrite Hk. reflexivity.
Defined.

Lemma store_grows_by_fresh_object {O : Type} (store : gmap positive O) (first last : O) :
  store ⊆ <[fresh (dom store) := last]> (<[fresh (dom store) := first]> store).
Proof.
  rewrite insert_insert_eq. apply insert_subseteq.
  apply not_elem_of_dom. apply is_fresh.
Qed.

Section BuilderResults.
Context {PostCondition SpendingCondition Authorization : Type}
        {StacksPrivateKey StacksPublicKey : Type}.
Variable C : Collaborators PostCondition SpendingCondition Authorization
               StacksPrivateKey StacksPublicKey.

(** X17: given a fee, the three builders make no request: each resolves at
    once to the transaction built from the chosen options (the given fee and
    the caller's post-conditions among them), signed with the sender's key,
    except that [makeSTXTokenTransfer] leaves it unsigned for an empty key;
    the objects already in the store are left as they were. *)
Theorem builders_given_a_fee (options : option (Options PostCondition)) (f : BigNum) :
  explicitFee options = Some f ->
  (forall recipient amount senderKey store,
      exists store',
        makeSTXTokenTransfer C recipient amount senderKey options store
        = Resolved (signedUnlessKeyless C senderKey
                      (unsignedTransfer C recipient amount senderKey options), store')
        /\ store ⊆ store')
  /\ (forall contractName codeBody senderKey store,
        exists store',
          makeSmartContractDeploy C contractName codeBody senderKey options store
          = Resolved (signOrigin C
                        (unsignedTransaction C
                           (createSmartContractPayload contractName codeBody)
                           senderKey options)
                        (createStacksPrivateKey C senderKey), store')
          /\ store ⊆ store')
  /\ (forall contractAddress contractName functionName functionArgs senderKey store,
        exists store',
          makeContractCall C contractAddress contractName functionName functionArgs
            senderKey options store
          = Resolved (signOrigin C
                        (unsignedTransaction C
                           (createContractCallPayload contractAddress contractName
                              functionName functionArgs)
                           senderKey options)
                        (createStacksPrivateKey C senderKey), store')
          /\ store ⊆ store').
Proof.
  intros Hfee. destruct options as [o|]; [|discriminate Hfee].
  split; [|split]; intros.
  - unfold makeSTXTokenTransfer. rewrite Hfee. repeat store_step.
    eexists. split; [|apply store_grows_by_fresh_object].
    apply (f_equal Resolved). apply (f_equal2 pair); [|reflexivity].
    unfold signedUnlessKeyless, unsignedTransfer, unsignedTransaction, chosen. simpl.
    rewrite pushPostConditions_default.
    destruct (opt_memo o), (opt_postConditions o); reflexivity.
  - unfold makeSmartContractDeploy. rewrite Hfee. repeat store_step.
    eexists. split; [|apply store_grows_by_fresh_object].
    apply (f_equal Resolved). apply (f_equal2 pair); [|reflexivity].
    unfold unsignedTransaction, chosen. simpl.
    rewrite pushPostConditions_default.
    destruct (opt_postConditions o); reflexivity.
  - unfold makeContractCall. rewrite Hfee. repeat store_step.
    eexists. split; [|apply store_grows_by_fresh_object].
    apply (f_equal Resolved). apply (f_equal2 pair); [|reflexivity].
    unfold unsignedTransaction, chosen. simpl.
    rewrite pushPostConditions_default.
    destruct (opt_postConditions o); reflexivity.
Qed.

(** X16: without a fee [makeSTXTokenTransfer] makes one GET request, to the
    caller's fee-estimate URL or, when that is missing or empty, to the
    default fee endpoint.  On a response it sets the fee to the fee rate
    times the byte length of the unsigned transaction and only then signs; on
    a failed fetch it is rejected with the error of the fetch. *)
Theorem transfer_without_a_fee (options : option (Options PostCondition)) :
  explicitFee options = None ->
  forall recipient amount senderKey store,
    let unsigned := unsignedTransfer C recipient amount senderKey options in
    let given :=
      chosen opt_feeEstimateApiUrl
        (DEFAULT_CORE_NODE_API_URL C +:+ "/v2/fees/transfer") options in
    let url :=
      if bool_decide (given = EmptyString)
      then DEFAULT_CORE_NODE_API_URL C +:+ "/v2/fees/transfer"
      else given in
    exists k,
      makeSTXTokenTransfer C recipient amount senderKey options store
      = AwaitFetch url {| method := "GET";
                          headers := [("Accept", "application/text")] |} k
      /\ (forall feeRateResult,
            exists store',
              k (Return feeRateResult)
              = Resolved (signedUnlessKeyless C senderKey
                            (setFee C unsigned (estimatedFee C unsigned feeRateResult)),
                          store')
              /\ store ⊆ store')
      /\ (forall e, k (Throw e) = Rejected e).
Proof.
  intros Hfee recipient amount senderKey store unsigned given url.
  unfold makeSTXTokenTransfer. rewrite Hfee. repeat store_step.
  match goal with
  | |- context [estimateTransfer C ?built (Some ?estimateUrl)] =>
      assert (Hunsigned : built = unsigned);
      [| assert (Hurl : orDefaultUrl C (Some estimateUrl) = url);
         [| rewrite Hunsigned ] ]
  end.
  - unfold unsigned, unsignedTransfer, unsignedTransaction, chosen.
    rewrite pushPostConditions_default.
    destruct options as [o|]; simpl; [|reflexivity].
    destruct (opt_memo o), (opt_postConditions o); reflexivity.
  - unfold url, given, chosen. by destruct options.
  - unfold bind at 1. unfold bind at 1. unfold liftPromise, await, estimateTransfer.
    assert (Hpayload : payloadType (payload unsigned) = TokenTransfer) by reflexivity.
    rewrite Hpayload. cbn [PayloadType_eqb negb]. rewrite Hurl.
    unfold fetchFee. cbn [Promise_bind].
    eexists. split; [reflexivity|]. split.
    + intros feeRateResult. eexists. split; [reflexivity|].
      apply store_grows_by_fresh_object.
    + intros e. reflexivity.
Qed.
End BuilderResults.

Lemma builders_given_a_fee_witness :
  explicitFee (Some onChainOptions) = Some 200
  /\ exists store',
      makeSTXTokenTransfer exampleCollaborators
        (inl "SP3FGQ8Z7JY9BWYZ5WM53E0M9NK7WHJF0691NZ159") 12345 "b244296d"
        (Some onChainOptions) ∅
      = Resolved
          ({| tx_version := 0;
              auth := ((SerializeP2PKH, "b244296d", 0, 200), Some "b244296d");
              payload :=
                TokenTransferPayload (inl "SP3FGQ8Z7JY9BWYZ5WM53E0M9NK7WHJF0691NZ159")
                  12345 (Some "test memo");
              tx_postConditions := {| values := [] |};
              tx_postConditionMode := Deny;
              tx_anchorMode := OnChainOnly;
              tx_chainId := 1 |}, store').
Proof.
  split; [reflexivity|].
  destruct (proj1 (builders_given_a_fee exampleCollaborators (Some onChainOptions) 200
                     eq_refl)
              (inl "SP3FGQ8Z7JY9BWYZ5WM53E0M9NK7WHJF0691NZ159") 12345 "b244296d" ∅)
    as (store' & Hrun & _).
  exists store'. rewrite Hrun. reflexivity.
Defined.

Lemma transfer_without_a_fee_witness :
  explicitFee (@None (Options unit)) = None
  /\ exists k,
      makeSTXTokenTransfer exampleCollaborators
        (inl "SP3FGQ8Z7JY9BWYZ5WM53E0M9NK7WHJF0691NZ159") 12345 "b244296d" None ∅
      = AwaitFetch "http://neon.blockstack.org:20443/v2/fees/transfer"
          {| method := "GET"; headers := [("Accept", "application/text")] |} k
      /\ forall e, k (Throw e) = Rejected e.
Proof.
  split; [reflexivity|].
  destruct (transfer_without_a_fee exampleCollaborators None eq_refl
              (inl "SP3FGQ8Z7JY9BWYZ5WM53E0M9NK7WHJF0691NZ159") 12345 "b244296d" ∅)
    as (k & Hrun & _ & Hfail).
  exists k. split; [exact Hrun | exact Hfail].
Defined.
